(** * Federation member-cluster client: endpoint selection, credentials,
      health probe and zone discovery

    A shallow embedding of package [cluster] (cluster_client.go):
    [KubeconfigGetterForCluster], [NewClusterClientSet],
    [GetClusterHealthStatus], [getZoneNameForNode], [getRegionNameForNode],
    [getZoneNames] and [GetClusterZones].

    Go values are modelled as follows.
    - A Go [string] and a [[]byte] are a [string] (a sequence of 8-bit
      [ascii] characters).
    - An [error] is its message, the string that [Error()] returns.
    - A pointer that may be nil is an [option]; a nilable slice is an
      [option (list _)].
    - A Go result tuple [(v, err)] of a function of this package is a Rocq
      tuple with an [option error]; a library function, which by convention
      returns exactly one of value and error, returns a sum.
    - A call that may panic (a nil dereference, an [...OrDie] constructor)
      returns an [outcome].
    - [map[string]string] is a [gmap string string], [sets.String] is a
      [gset string]. *)

From Stdlib Require Import String Ascii List ZArith QArith.
From stdpp Require Import base option list sorting gmap strings pretty.

Local Open Scope string_scope.
Local Open Scope list_scope.

(** ** Go runtime conventions *)

Definition error : Type := string.

Inductive outcome (A : Type) : Type :=
| Returns (a : A)
| Panics.
Arguments Returns {A} a.
Arguments Panics {A}.

(** [unversioned.Time]: the probe clock is read once per call. *)
Definition Time : Type := Z.

(** ** API objects (k8s.io/kubernetes/pkg/api) *)

Record Node : Type := mkNode {
  Name : string;
  Labels : gmap string string
}.

(** The two well-known node label keys of package [unversioned]; their
    values are declared outside this package. *)
Class WellKnownLabels : Type := {
  LabelZoneFailureDomain : string;
  LabelZoneRegion : string
}.

(** The data-plane handle. The only request this package issues through it
    is the unfiltered node listing [Core().Nodes().List(api.ListOptions{})]. *)
Record Clientset : Type := mkClientset {
  NodesList : list Node + error
}.

(** The discovery handle. [Raw path] is the result [(body, err)] of
    [Get().AbsPath(path).Do().Raw()]. *)
Record DiscoveryClient : Type := mkDiscoveryClient {
  Raw : string -> string * option error
}.

Record ClusterClient : Type := mkClusterClient {
  discoveryClient : option DiscoveryClient;
  kubeClient : option Clientset
}.

(** ** sets.String *)

Definition string_le : relation string := fun a b => String.leb a b = true.

Global Instance string_le_dec : RelDecision string_le.
Proof. intros a b. unfold string_le. apply _. Defined.

(** [sets.String.List]: the members, sorted by [sort.Sort] under the
    byte-wise order of Go strings. The result is never a nil slice. *)
Definition sets_List (s : gset string) : list string :=
  merge_sort string_le (elements s).

(** ** Zone discovery *)

Section Zones.
Context `{WellKnownLabels}.

(** [for key, value := range labels { if key == want { return value } }]
    over the key/value pairs in the order the iteration visits them. *)
Fixpoint rangeFind (want : string) (kvs : list (string * string)) : option string :=
  match kvs with
  | [] => None
  | (key, value) :: rest =>
      if decide (key = want) then Some value else rangeFind want rest
  end.

Definition getZoneNameForNode (node : Node) : string * option error :=
  match rangeFind LabelZoneFailureDomain (map_to_list (Labels node)) with
  | Some value => (value, None)
  | None =>
      (EmptyString, Some ("Zone name for node " +:+ Name node
                 +:+ " not found. No label with key " +:+ LabelZoneFailureDomain))
  end.

Definition getRegionNameForNode (node : Node) : string * option error :=
  match rangeFind LabelZoneRegion (map_to_list (Labels node)) with
  | Some value => (value, None)
  | None =>
      (EmptyString, Some ("Region name for node " +:+ Name node
                 +:+ " not found. No label with key " +:+ LabelZoneRegion))
  end.

(** The body of [for i, node := range nodes.Items], with the loop state
    [(i, zoneNames, region)] passed along; [items] are the nodes from index
    [i] on. *)
Fixpoint zoneLoop (i : nat) (items : list Node) (zoneNames : gset string)
    (region : string) : option (list string) * string * option error :=
  match items with
  | [] => (Some (sets_List zoneNames), region, None)
  | node :: rest =>
      match getZoneNameForNode node with
      | (_, Some err) => (None, EmptyString, Some err)
      | (zoneName, None) =>
          let zoneNames := {[zoneName]} ∪ zoneNames in
          if Nat.eqb i 0 then
            match getRegionNameForNode node with
            | (_, Some err) => (None, EmptyString, Some err)
            | (region, None) => zoneLoop (S i) rest zoneNames region
            end
          else zoneLoop (S i) rest zoneNames region
      end
  end.

Definition getZoneNames (client : option Clientset)
  : outcome (option (list string) * string * option error) :=
  match client with
  | None => Panics
  | Some client =>
      match NodesList client with
      | inr err => Returns (None, EmptyString, Some err)
      | inl items => Returns (zoneLoop 0 items ∅ EmptyString)
      end
  end.

Definition GetClusterZones (self : ClusterClient)
  : outcome (option (list string) * string * option error) :=
  getZoneNames (kubeClient self).

End Zones.

(** The label keys of Kubernetes, for running the model on concrete nodes. *)
Definition k8sLabels : WellKnownLabels := {|
  LabelZoneFailureDomain := "failure-domain.beta.kubernetes.io/zone";
  LabelZoneRegion := "failure-domain.beta.kubernetes.io/region"
|}.

Definition zonedNode (name zone : string) (region : option string) : Node :=
  mkNode name
    (match region with
     | Some r => <[@LabelZoneRegion k8sLabels := r]> {[@LabelZoneFailureDomain k8sLabels := zone]}
     | None => {[@LabelZoneFailureDomain k8sLabels := zone]}
     end).

(** Listings used as examples below. *)
Definition eastNodes : list Node :=
  [zonedNode "node-1" "us-east-1a" (Some "us-east-1");
   zonedNode "node-2" "us-east-1b" None;
   zonedNode "node-3" "us-east-1a" None].

Definition unlabelledNode (name : string) : Node := mkNode name ∅.

Definition listing (items : list Node) : Clientset := mkClientset (inl items).

Definition mixedNodes : list Node :=
  [zonedNode "node-a" "zone-1" (Some "region-1");
   zonedNode "node-b" "zone-2" None].

Definition brokenNodes : list Node :=
  [zonedNode "node-a" "zone-1" None; unlabelledNode "node-b"].

(** ** Health probe *)

Inductive ClusterConditionType : Type := ClusterReady | ClusterOffline.

Inductive ConditionStatus : Type := ConditionTrue | ConditionFalse | ConditionUnknown.

Record ClusterCondition : Type := mkClusterCondition {
  Type_ : ClusterConditionType;
  Status : ConditionStatus;
  Reason : string;
  Message : string;
  LastProbeTime : Time;
  LastTransitionTime : Time
}.

(** The probe fills in [Conditions] only; every other field of the status
    keeps its zero value. *)
Record ClusterStatus : Type := mkClusterStatus {
  Conditions : list ClusterCondition
}.

(** *** strings.EqualFold *)

Definition byte_of (n : N) : ascii := ascii_of_N n.

(** Two bytes below [utf8.RuneSelf] fold together when they are equal or are
    the upper and lower case of one letter:
    [if tr < sr { tr, sr = sr, tr };
     'A' <= sr && sr <= 'Z' && tr == sr+'a'-'A']. *)
Definition asciiFoldEq (a b : ascii) : bool :=
  let x := N_of_ascii a in
  let y := N_of_ascii b in
  let sr := N.min x y in
  let tr := N.max x y in
  (x =? y)%N || ((65 <=? sr)%N && (sr <=? 90)%N && (tr =? sr + 32)%N).

(** [stripPrefix p s] is the rest of [s] after its prefix [p]. *)
Fixpoint stripPrefix (p s : string) : option string :=
  match p with
  | EmptyString => Some s
  | String a p' =>
      match s with
      | EmptyString => None
      | String b s' => if Ascii.eqb a b then stripPrefix p' s' else None
      end
  end.

(** UTF-8 of U+212A KELVIN SIGN and of U+017F LATIN SMALL LETTER LONG S, the
    two runes outside ASCII whose [unicode.SimpleFold] orbit meets ASCII
    (k, K and s, S). *)
Definition kelvinSign : string :=
  String (byte_of 226) (String (byte_of 132) (String (byte_of 170) EmptyString)).
Definition longS : string :=
  String (byte_of 197) (String (byte_of 191) EmptyString).

Definition isLetter (lower : N) (c : ascii) : bool :=
  (N_of_ascii c =? lower)%N || (N_of_ascii c =? lower - 32)%N.

(** [strings.EqualFold s t] for a second argument [t] made of ASCII bytes
    (this package compares with the literal ok). The runes of [s] are
    matched one by one against the bytes of [t]: an ASCII byte of [s]
    matches by [asciiFoldEq]; a rune of [s] outside ASCII matches only as
    the Kelvin sign against k or K, or as the long s against s or S. *)
Fixpoint EqualFold (s t : string) : bool :=
  match t with
  | EmptyString => match s with EmptyString => true | String _ _ => false end
  | String tr t' =>
      match s with
      | EmptyString => false
      | String sr s' =>
          if asciiFoldEq sr tr then EqualFold s' t'
          else if isLetter 107 tr then
            match stripPrefix kelvinSign s with
            | Some s'' => EqualFold s'' t'
            | None => false
            end
          else if isLetter 115 tr then
            match stripPrefix longS s with
            | Some s'' => EqualFold s'' t'
            | None => false
            end
          else false
      end
  end.

Section Probe.
Variable currentTime : Time.

Definition newClusterReadyCondition : ClusterCondition := {|
  Type_ := ClusterReady;
  Status := ConditionTrue;
  Reason := "ClusterReady";
  Message := "/healthz responded with ok";
  LastProbeTime := currentTime;
  LastTransitionTime := currentTime
|}.

Definition newClusterNotReadyCondition : ClusterCondition := {|
  Type_ := ClusterReady;
  Status := ConditionFalse;
  Reason := "ClusterNotReady";
  Message := "/healthz responded without ok";
  LastProbeTime := currentTime;
  LastTransitionTime := currentTime
|}.

Definition newNodeOfflineCondition : ClusterCondition := {|
  Type_ := ClusterOffline;
  Status := ConditionTrue;
  Reason := "ClusterNotReachable";
  Message := "cluster is not reachable";
  LastProbeTime := currentTime;
  LastTransitionTime := currentTime
|}.

Definition newNodeNotOfflineCondition : ClusterCondition := {|
  Type_ := ClusterOffline;
  Status := ConditionFalse;
  Reason := "ClusterReachable";
  Message := "cluster is reachable";
  LastProbeTime := currentTime;
  LastTransitionTime := currentTime
|}.

(** [currentTime] is the value [unversioned.Now()] returns in this call.
    A client without a discovery handle makes the request panic. *)
Definition GetClusterHealthStatus (self : ClusterClient) : outcome ClusterStatus :=
  let clusterStatus := mkClusterStatus [] in
  match discoveryClient self with
  | None => Panics
  | Some dc =>
      let '(body, err) := Raw dc "/healthz" in
      match err with
      | Some _ =>
          Returns (mkClusterStatus
            (Conditions clusterStatus ++ [newNodeOfflineCondition]))
      | None =>
          if negb (EqualFold body "ok") then
            Returns (mkClusterStatus
              (Conditions clusterStatus
                 ++ [newClusterNotReadyCondition; newNodeNotOfflineCondition]))
          else
            Returns (mkClusterStatus
              (Conditions clusterStatus ++ [newClusterReadyCondition]))
      end
  end.

End Probe.

(** A client whose discovery handle answers every request with
    [(body, err)]. *)
Definition answering (body : string) (err : option error) : ClusterClient :=
  mkClusterClient (Some (mkDiscoveryClient (fun _ => (body, err)))) None.

(** ** Cluster objects (federation/apis/federation/v1alpha1) *)

Record ServerAddressByClientCIDR : Type := mkServerAddressByClientCIDR {
  ClientCIDR : string;
  ServerAddress : string
}.

(** [SecretRef] is a pointer to a local object reference, whose only field
    is the secret's name. *)
Record ClusterSpec : Type := mkClusterSpec {
  ServerAddressByClientCIDRs : list ServerAddressByClientCIDR;
  SecretRef : option string
}.

Record Cluster : Type := mkCluster {
  ClusterName : string;
  Spec : ClusterSpec
}.

Record Secret : Type := mkSecret {
  Data : gmap string string
}.

(** The in-cluster client of the hosting control plane;
    [SecretsGet namespace name] is [Secrets(namespace).Get(name)]. *)
Record InClusterClient : Type := mkInClusterClient {
  SecretsGet : string -> string -> Secret + error
}.

(** ** Library interfaces *)

(** Package [net] and [utilnet]. [IP] is Go's [net.IP], a byte slice that
    may be nil; [ParseCIDR] keeps the network of the pair Go returns. *)
Class NetLib : Type := {
  IP : Type;
  IPNet : Type;
  ParseCIDR : string -> IPNet + error;
  ParseIP : string -> IP;
  IP_String : IP -> string;
  IPNet_Contains : IPNet -> IP -> bool
}.

(** Packages [clientcmd], [restclient], [discovery] and [clientset]. *)
Class ClientLib : Type := {
  ApiConfig : Type;
  ConfigRest : Type;
  Load : string -> ApiConfig + error
}.

(** [restclient.Config]: the fields this package writes, and the rest. *)
Record RestConfig `{ClientLib} : Type := mkRestConfig {
  Host : string;
  UserAgent : string;
  QPS : Q;
  Burst : Z;
  Rest : ConfigRest
}.

(** [clientcmd.KubeconfigGetter]: a function without arguments that returns
    a pointer to a [clientcmdapi.Config], or an error. *)
Definition KubeconfigGetter `{ClientLib} : Type := unit -> outcome (ApiConfig + error).

Class BuildLib `{ClientLib} : Type := {
  BuildConfigFromKubeconfigGetter :
    string -> KubeconfigGetter -> outcome (RestConfig + error);
  AddUserAgent : RestConfig -> string -> RestConfig;
  NewDiscoveryClientForConfigOrDie : RestConfig -> outcome (option DiscoveryClient);
  NewForConfigOrDie : RestConfig -> outcome (option Clientset)
}.

(** What the process reads from its host: the outbound interface
    ([utilnet.ChooseHostInterface]), the environment ([os.Getenv], empty for
    an unset variable) and the in-cluster client ([client.NewInCluster]). *)
Class HostEnv `{NetLib} : Type := {
  ChooseHostInterface : IP + error;
  Getenv : string -> string;
  NewInCluster : InClusterClient + error
}.

(** ** Constants *)

Definition UserAgentName : string := "Cluster-Controller".
Definition KubeAPIQPS : Q := Qmake 20 1.
Definition KubeAPIBurst : Z := 30.
Definition KubeconfigSecretDataKey : string := "kubeconfig".

(** ** Credential resolver and client factory *)

Section Factory.
Context `{NetLib} `{!HostEnv} `{ClientLib} `{!BuildLib}.

Definition KubeconfigGetterForCluster (c : Cluster) : KubeconfigGetter :=
  fun _ =>
    let namespace := Getenv "POD_NAMESPACE" in
    if decide (namespace = EmptyString) then
      Returns (inr "unexpected: POD_NAMESPACE env var returned empty string")
    else
      match NewInCluster with
      | inr err => Returns (inr ("error in creating in-cluster client: " +:+ err))
      | inl client =>
          match SecretRef (Spec c) with
          | None => Panics
          | Some name =>
              match SecretsGet client namespace name with
              | inr err => Returns (inr ("error in fetching secret: " +:+ err))
              | inl secret =>
                  match Data secret !! KubeconfigSecretDataKey with
                  | None =>
                      Returns (inr ("secret does not have data with key: "
                                    +:+ KubeconfigSecretDataKey))
                  | Some data => Returns (Load data)
                  end
              end
          end
      end.

(** The loop over [c.Spec.ServerAddressByClientCIDRs]; [serverAddress] is
    the variable of that name, and [inr err] is the early return on a CIDR
    that does not parse. *)
Fixpoint serverAddressLoop (hostIP : IP) (items : list ServerAddressByClientCIDR)
    (serverAddress : string) : string + error :=
  match items with
  | [] => inl serverAddress
  | item :: rest =>
      match ParseCIDR (ClientCIDR item) with
      | inr err => inr err
      | inl cidrnet =>
          let myaddr := ParseIP (IP_String hostIP) in
          if IPNet_Contains cidrnet myaddr then inl (ServerAddress item)
          else serverAddressLoop hostIP rest serverAddress
      end
  end.

(** [kubeconfigGetterFor] is the value the package variable
    [KubeconfigGetterForCluster] holds when the call is made. The [err]
    returned with the client on the last line is the one of
    [ChooseHostInterface], nil there. *)
Definition NewClusterClientSet (kubeconfigGetterFor : Cluster -> KubeconfigGetter)
    (c : Cluster) : outcome (option ClusterClient * option error) :=
  match ChooseHostInterface with
  | inr err => Returns (None, Some err)
  | inl hostIP =>
      match serverAddressLoop hostIP (ServerAddressByClientCIDRs (Spec c)) EmptyString with
      | inr err => Returns (None, Some err)
      | inl serverAddress =>
          let clusterClientSet := mkClusterClient None None in
          if decide (serverAddress <> EmptyString) then
            let kubeconfigGetter := kubeconfigGetterFor c in
            match BuildConfigFromKubeconfigGetter serverAddress kubeconfigGetter with
            | Panics => Panics
            | Returns (inr err) => Returns (None, Some err)
            | Returns (inl clusterConfig) =>
                let clusterConfig :=
                  mkRestConfig _ (Host clusterConfig) (UserAgent clusterConfig)
                    KubeAPIQPS KubeAPIBurst (Rest clusterConfig) in
                let clusterConfig := AddUserAgent clusterConfig UserAgentName in
                match NewDiscoveryClientForConfigOrDie clusterConfig with
                | Panics => Panics
                | Returns None => Returns (None, None)
                | Returns (Some dc) =>
                    let clusterClientSet :=
                      mkClusterClient (Some dc) (kubeClient clusterClientSet) in
                    let clusterConfig := AddUserAgent clusterConfig UserAgentName in
                    match NewForConfigOrDie clusterConfig with
                    | Panics => Panics
                    | Returns None => Returns (None, None)
                    | Returns (Some kc) =>
                        let clusterClientSet :=
                          mkClusterClient (discoveryClient clusterClientSet) (Some kc) in
                        Returns (Some clusterClientSet, None)
                    end
                end
            end
          else Returns (Some clusterClientSet, None)
      end
  end.

End Factory.

(** ** An IPv4 instance of the library interfaces

    Used to run the model on concrete specs: addresses are 32-bit numbers,
    a network is an address and a mask, and the parsers read dotted-decimal
    text. *)

Module IPv4.

Fixpoint splitOn (sep : ascii) (s : string) : list string :=
  match s with
  | EmptyString => [EmptyString]
  | String c s' =>
      let r := splitOn sep s' in
      if Ascii.eqb c sep then EmptyString :: r
      else match r with
           | [] => [String c EmptyString]
           | h :: t => String c h :: t
           end
  end.

Fixpoint digits (acc : N) (s : string) : option N :=
  match s with
  | EmptyString => Some acc
  | String c s' =>
      let d := N_of_ascii c in
      if (48 <=? d)%N && (d <=? 57)%N then digits (acc * 10 + (d - 48))%N s'
      else None
  end.

Definition dtoi (s : string) : option N :=
  match s with
  | EmptyString => None
  | String _ _ => digits 0%N s
  end.

Definition octet (s : string) : option N :=
  match dtoi s with
  | Some n => if (n <=? 255)%N then Some n else None
  | None => None
  end.

Definition parseIPv4 (s : string) : option N :=
  match splitOn "." s with
  | [a; b; c; d] =>
      match octet a, octet b, octet c, octet d with
      | Some a, Some b, Some c, Some d => Some (((a * 256 + b) * 256 + c) * 256 + d)%N
      | _, _, _, _ => None
      end
  | _ => None
  end.

Definition parseCIDR (s : string) : (N * N) + error :=
  match splitOn "/" s with
  | [addr; len] =>
      match parseIPv4 addr, dtoi len with
      | Some ip, Some n =>
          if (n <=? 32)%N then
            let mask := N.shiftl (N.ones n) (32 - n) in
            inl (N.land ip mask, mask)
          else inr ("invalid CIDR address: " +:+ s)
      | _, _ => inr ("invalid CIDR address: " +:+ s)
      end
  | _ => inr ("invalid CIDR address: " +:+ s)
  end.

Definition showIP (ip : option N) : string :=
  match ip with
  | None => "<nil>"
  | Some n =>
      pretty (n / 16777216)%N +:+ "." +:+ pretty ((n / 65536) mod 256)%N +:+ "."
        +:+ pretty ((n / 256) mod 256)%N +:+ "." +:+ pretty (n mod 256)%N
  end.

Definition contains (net : N * N) (ip : option N) : bool :=
  match ip with
  | None => false
  | Some n => (N.land n (snd net) =? fst net)%N
  end.

Definition net : NetLib := {|
  IP := option N;
  IPNet := N * N;
  ParseCIDR := parseCIDR;
  ParseIP := parseIPv4;
  IP_String := showIP;
  IPNet_Contains := contains
|}.

(** A host whose outbound interface has the address written [addr], with
    the given environment and in-cluster client. *)
Definition host (addr : string) (env : gmap string string)
    (inCluster : InClusterClient + error) : @HostEnv net :=
  @Build_HostEnv net
    (match parseIPv4 addr with
     | Some n => inl (Some n)
     | None => inr "no acceptable interface from host"
     end)
    (fun key => default EmptyString (env !! key))
    inCluster.

(** Client libraries in which a kubeconfig document is kept as text, and
    every handle answers ok and lists no node. *)
Definition clients : ClientLib := {|
  ApiConfig := string;
  ConfigRest := string;
  Load := fun data =>
    match data with
    | EmptyString => inr "empty kubeconfig"
    | String _ _ => inl data
    end
|}.

Definition buildConfig (masterUrl : string)
    (getter : unit -> outcome (string + error)) : outcome (@RestConfig clients + error) :=
  match getter tt with
  | Panics => Panics
  | Returns (inr err) => Returns (inr err)
  | Returns (inl config) =>
      Returns (inl (@mkRestConfig clients masterUrl EmptyString (Qmake 0 1) 0 config))
  end.

Definition addUserAgent (config : @RestConfig clients) (userAgent : string)
  : @RestConfig clients :=
  @mkRestConfig clients (Host config) ("kubernetes/" +:+ userAgent)
    (QPS config) (Burst config) (Rest config).

Definition build : @BuildLib clients :=
  @Build_BuildLib clients buildConfig addUserAgent
    (fun _ => Returns (Some (mkDiscoveryClient (fun _ => ("ok", None)))))
    (fun _ => Returns (Some (mkClientset (inl [])))).

End IPv4.

(** ** Locale handler (src/app/backend/handler/localehandler.go) *)

Record Translation : Type := mkTranslation {
  File : string;
  Key : string
}.

Record Localization : Type := mkLocalization {
  Translations : list Translation
}.

Record LocaleHandler : Type := mkLocaleHandler {
  SupportedLocales : list string
}.

(** What the handler takes from its libraries and from the file system.
    - [ParseAcceptLanguage] is [language.ParseAcceptLanguage] without the
      quality values, which the handler drops. The order of the tags is the
      parser's: it sorts them by quality, so it is not the order in which
      the header writes them.
    - [Tag_Base tag] is the string of the base language of [tag].
    - [ReadFile] is [ioutil.ReadFile].
    - [Unmarshal data] is the [Localization] left by [json.Unmarshal] of
      [data] into a zero value, with the error it returns.
    - [Stat name] is the error of [os.Stat name], and [IsNotExist] is
      [os.IsNotExist]. *)
Class LocaleLib : Type := {
  Tag : Type;
  ParseAcceptLanguage : string -> list Tag * option error;
  Tag_Base : Tag -> string;
  ReadFile : string -> string + error;
  Unmarshal : string -> Localization * option error;
  Stat : string -> option error;
  IsNotExist : error -> bool
}.

Definition defaultDir : string := "./public/en".

Section Locale.
Context `{LocaleLib}.

(** The loop that appends the key of every translation to [result]. *)
Fixpoint keysLoop (translations : list Translation) (result : list string)
  : list string :=
  match translations with
  | [] => result
  | translation :: rest => keysLoop rest (result ++ [Key translation])
  end.

(** The error of [json.Unmarshal] is logged and dropped. The returned slice
    is never nil. *)
Definition getSupportedLocales (configFile : string) : list string * option error :=
  match ReadFile configFile with
  | inr err => ([], Some err)
  | inl localesFile =>
      let '(localization, _) := Unmarshal localesFile in
      let result := [] in
      (keysLoop (Translations localization) result, None)
  end.

Definition CreateLocaleHandler : LocaleHandler :=
  let '(locales, err) := getSupportedLocales "./locale_conf.json" in
  match err with
  | Some _ => mkLocaleHandler []
  | None => mkLocaleHandler locales
  end.

Definition dirExists (name : string) : bool :=
  match Stat name with
  | Some err => if IsNotExist err then false else true
  | None => true
  end.

(** The inner loop over [handler.SupportedLocales]; [matchedLocale] is the
    variable of that name. *)
Fixpoint localeLoop (base : string) (supported : list string)
    (matchedLocale : string) : string :=
  match supported with
  | [] => matchedLocale
  | l :: rest =>
      if decide (l = base) then l else localeLoop base rest matchedLocale
  end.

(** The outer loop over the tags, in the order the parser returned them. *)
Fixpoint tagLoop (handler : LocaleHandler) (tags : list Tag) : string :=
  match tags with
  | [] => defaultDir
  | tag :: rest =>
      let matchedLocale :=
        localeLoop (Tag_Base tag) (SupportedLocales handler) EmptyString in
      let localeDir := "./public/" +:+ matchedLocale in
      if bool_decide (matchedLocale <> EmptyString) && dirExists localeDir
      then localeDir
      else tagLoop handler rest
  end.

Definition determineLocalizedDir (handler : LocaleHandler) (locale : string) : string :=
  let '(tags, err) := ParseAcceptLanguage locale in
  if bool_decide (is_Some err) || bool_decide (length tags = 0) then defaultDir
  else tagLoop handler tags.

End Locale.

(** A file system and header parser given by tables, to run the handler:
    a tag is its own base language. *)
Definition tableLocale (headers : gmap string (list string))
    (files : gmap string string) (documents : gmap string Localization)
    (dirs : gset string) : LocaleLib := {|
  Tag := string;
  ParseAcceptLanguage := fun header =>
    match headers !! header with
    | Some tags => (tags, None)
    | None => ([], Some "language: tag is not well-formed")
    end;
  Tag_Base := fun tag => tag;
  ReadFile := fun name =>
    match files !! name with
    | Some data => inl data
    | None => inr ("open " +:+ name +:+ ": no such file or directory")
    end;
  Unmarshal := fun data =>
    match documents !! data with
    | Some localization => (localization, None)
    | None => (mkLocalization [], Some "unexpected end of JSON input")
    end;
  Stat := fun name =>
    if bool_decide (name ∈ dirs) then None
    else Some ("stat " +:+ name +:+ ": no such file or directory");
  IsNotExist := fun _ => true
|}.

Definition exampleLocale : LocaleLib :=
  tableLocale
    {["de-CH, fr;q=0.8, ja;q=0.5" := ["de"; "fr"; "ja"]]}
    {["./locale_conf.json" := "conf"]}
    {["conf" := mkLocalization
        [mkTranslation "messages-fr.xtb" "fr"; mkTranslation "messages-ja.xtb" "ja"]]}
    {["./public/fr"; "./public/ja"; "./public/en"]}.

(** ** Vocabulary of the statements *)

Section Vocabulary.
Context `{WellKnownLabels}.

Definition zoneOf (node : Node) : option string :=
  Labels node !! LabelZoneFailureDomain.

Definition regionOf (node : Node) : option string :=
  Labels node !! LabelZoneRegion.

(** The error of [getZoneNameForNode]: it carries the node's name and the
    key of the label that is missing. *)
Definition zoneNotFound (node : Node) : error :=
  "Zone name for node " +:+ Name node
    +:+ " not found. No label with key " +:+ LabelZoneFailureDomain.

Definition regionNotFound (node : Node) : error :=
  "Region name for node " +:+ Name node
    +:+ " not found. No label with key " +:+ LabelZoneRegion.

(** The zone label values found on a list of nodes, as a set. *)
Definition zoneSet (items : list Node) : gset string :=
  list_to_set (omap zoneOf items).

End Vocabulary.

(** The condition set of a status: each condition's type and truth value. *)
Definition conditionKinds (status : ClusterStatus)
  : list (ClusterConditionType * ConditionStatus) :=
  (λ c, (Type_ c, Status c)) <$> Conditions status.

(** A pair whose CIDR parses to a network that holds, or does not hold,
    the host's address as the loop computes it. *)
Definition isMatch `{NetLib} (hostIP : IP) (item : ServerAddressByClientCIDR) : Prop :=
  ∃ cidrnet, ParseCIDR (ClientCIDR item) = inl cidrnet
             ∧ IPNet_Contains cidrnet (ParseIP (IP_String hostIP)) = true.

Definition noMatch `{NetLib} (hostIP : IP) (item : ServerAddressByClientCIDR) : Prop :=
  ∃ cidrnet, ParseCIDR (ClientCIDR item) = inl cidrnet
             ∧ IPNet_Contains cidrnet (ParseIP (IP_String hostIP)) = false.

(** Specs and hosts used as examples below. *)
Definition clusterWith (pairs : list (string * string)) : Cluster :=
  mkCluster "member"
    (mkClusterSpec (uncurry mkServerAddressByClientCIDR <$> pairs) (Some "member-secret")).

Definition podEnv : gmap string string := {["POD_NAMESPACE" := "federation"]}.

(** A resolver injected in place of the default one, as tests do. *)
Definition staticGetter (result : string + error) : Cluster -> @KubeconfigGetter IPv4.clients :=
  fun _ _ => Returns result.

(** A tag the handler can serve: its base language is a supported locale,
    is not empty, and has a directory. *)
Definition servable `{LocaleLib} (handler : LocaleHandler) (tag : Tag) : Prop :=
  Tag_Base tag ∈ SupportedLocales handler
  ∧ Tag_Base tag <> EmptyString
  ∧ dirExists ("./public/" +:+ Tag_Base tag) = true.

(** * Properties *)

(** ** The order of Go strings *)

Lemma ascii_compare_refl (a : ascii) : Ascii.compare a a = Eq.
Proof. unfold Ascii.compare. apply N.compare_refl. Qed.

Lemma string_compare_le_trans (a b c : string) :
  String.compare a b <> Gt -> String.compare b c <> Gt -> String.compare a c <> Gt.
Proof.
  revert b c. induction a as [|x a IH]; intros [|y b] [|z c]; simpl;
    try congruence.
  destruct (Ascii.compare x y) eqn:Hxy; [| |congruence].
  - apply Ascii.compare_eq_iff in Hxy as ->.
    destruct (Ascii.compare y z); [apply IH|congruence|congruence].
  - destruct (Ascii.compare y z) eqn:Hyz; [| |congruence].
    + apply Ascii.compare_eq_iff in Hyz as <-. rewrite Hxy. congruence.
    + unfold Ascii.compare in *.
      rewrite N.compare_lt_iff in Hxy, Hyz.
      assert (Hxz : (N_of_ascii x < N_of_ascii z)%N) by lia.
      apply N.compare_lt_iff in Hxz. rewrite Hxz. congruence.
Qed.

Lemma string_le_compare (a b : string) : string_le a b <-> String.compare a b <> Gt.
Proof.
  unfold string_le, String.leb. destruct (String.compare a b); split; congruence.
Qed.

Global Instance string_le_trans : Transitive string_le.
Proof.
  intros a b c. rewrite !string_le_compare. apply string_compare_le_trans.
Qed.

Global Instance string_le_total : Total string_le.
Proof. intros a b. apply String.leb_total. Qed.

Global Instance string_le_antisym : AntiSymm (=) string_le.
Proof. intros a b. apply String.leb_antisym. Qed.

(** ** sets.String.List *)

Lemma sets_List_Sorted (s : gset string) : Sorted string_le (sets_List s).
Proof. apply (Sorted_merge_sort string_le). Qed.

Lemma sets_List_Permutation (s : gset string) : sets_List s ≡ₚ elements s.
Proof. apply merge_sort_Permutation. Qed.

Lemma sets_List_NoDup (s : gset string) : NoDup (sets_List s).
Proof. rewrite sets_List_Permutation. apply NoDup_elements. Qed.

Lemma elem_of_sets_List (s : gset string) (x : string) : x ∈ sets_List s ↔ x ∈ s.
Proof. rewrite sets_List_Permutation. apply elem_of_elements. Qed.

(** ** Ranging over a label map *)

Lemma rangeFind_Some (want : string) (kvs : list (string * string)) (v : string) :
  NoDup kvs.*1 -> rangeFind want kvs = Some v ↔ (want, v) ∈ kvs.
Proof.
  induction kvs as [|[key value] rest IH]; simpl; intros Hnd.
  - split; [discriminate|]. intros Hin. by apply elem_of_nil in Hin.
  - apply NoDup_cons in Hnd as [Hfresh Hnd]. rewrite elem_of_cons.
    destruct (decide (key = want)) as [->|Hne].
    + split.
      * intros [= ->]. by left.
      * intros [[= ->]|Hin]; [done|].
        exfalso. apply Hfresh. apply list_elem_of_fmap. by exists (want, v).
    + rewrite (IH Hnd). split; [by right|].
      intros [[= -> ->]|Hin]; [done|done].
Qed.

(** The loop finds the value stored under the key, whatever the order in
    which the map is visited. *)
Lemma rangeFind_lookup (want : string) (labels : gmap string string) :
  rangeFind want (map_to_list labels) = labels !! want.
Proof.
  apply option_eq. intros v.
  rewrite rangeFind_Some by apply NoDup_fst_map_to_list.
  apply elem_of_map_to_list.
Qed.

Lemma rangeFind_Permutation (want : string) (kvs kvs' : list (string * string)) :
  NoDup kvs.*1 -> kvs ≡ₚ kvs' -> rangeFind want kvs = rangeFind want kvs'.
Proof.
  intros Hnd Hp. apply option_eq. intros v.
  rewrite !rangeFind_Some; [by rewrite Hp|by rewrite <- Hp|done].
Qed.

Section ZoneFacts.
Context {labels : WellKnownLabels}.

Lemma getZoneNameForNode_found (node : Node) (zone : string) :
  zoneOf node = Some zone -> getZoneNameForNode node = (zone, None).
Proof.
  unfold zoneOf, getZoneNameForNode. rewrite rangeFind_lookup. by intros ->.
Qed.

Lemma getZoneNameForNode_missing (node : Node) :
  zoneOf node = None ->
  getZoneNameForNode node = (EmptyString, Some (zoneNotFound node)).
Proof.
  unfold zoneOf, getZoneNameForNode. rewrite rangeFind_lookup. by intros ->.
Qed.

Lemma getRegionNameForNode_found (node : Node) (region : string) :
  regionOf node = Some region -> getRegionNameForNode node = (region, None).
Proof.
  unfold regionOf, getRegionNameForNode. rewrite rangeFind_lookup. by intros ->.
Qed.

Lemma getRegionNameForNode_missing (node : Node) :
  regionOf node = None ->
  getRegionNameForNode node = (EmptyString, Some (regionNotFound node)).
Proof.
  unfold regionOf, getRegionNameForNode. rewrite rangeFind_lookup. by intros ->.
Qed.

Lemma zoneSet_nil : zoneSet [] = ∅.
Proof. done. Qed.

Lemma zoneSet_cons_found (node : Node) (rest : list Node) (zone : string) :
  zoneOf node = Some zone -> zoneSet (node :: rest) = {[zone]} ∪ zoneSet rest.
Proof. unfold zoneSet. simpl. by intros ->. Qed.

Lemma elem_of_zoneSet (items : list Node) (zone : string) :
  zone ∈ zoneSet items ↔ ∃ node, node ∈ items ∧ zoneOf node = Some zone.
Proof. unfold zoneSet. rewrite elem_of_list_to_set. apply list_elem_of_omap. Qed.

Lemma zoneSet_Permutation (items items' : list Node) :
  items ≡ₚ items' -> zoneSet items = zoneSet items'.
Proof.
  intros Hp. apply set_eq. intros zone. rewrite !elem_of_zoneSet.
  by setoid_rewrite Hp.
Qed.

(** After the first iteration the loop only collects zone names. *)
Lemma zoneLoop_rest_ok (i : nat) (items : list Node) (zoneNames : gset string)
    (region : string) :
  Forall (λ node, is_Some (zoneOf node)) items ->
  zoneLoop (S i) items zoneNames region
  = (Some (sets_List (zoneSet items ∪ zoneNames)), region, None).
Proof.
  intros Hall. revert i zoneNames.
  induction Hall as [|node rest [zone Hz] _ IH]; intros i zoneNames; simpl.
  - rewrite zoneSet_nil. by rewrite (left_id_L ∅ (∪)).
  - rewrite (getZoneNameForNode_found _ _ Hz), IH, (zoneSet_cons_found _ _ _ Hz).
    do 3 f_equal. apply (f_equal sets_List).
    by rewrite (assoc_L (∪)), (comm_L (∪) (zoneSet rest)).
Qed.

Lemma zoneLoop_rest_missing (i : nat) (pre : list Node) (node : Node)
    (post : list Node) (zoneNames : gset string) (region : string) :
  Forall (λ node, is_Some (zoneOf node)) pre ->
  zoneOf node = None ->
  zoneLoop (S i) (pre ++ node :: post) zoneNames region
  = (None, EmptyString, Some (zoneNotFound node)).
Proof.
  intros Hall Hmiss. revert i zoneNames.
  induction Hall as [|n rest [zone Hz] _ IH]; intros i zoneNames; simpl.
  - by rewrite (getZoneNameForNode_missing _ Hmiss).
  - by rewrite (getZoneNameForNode_found _ _ Hz), IH.
Qed.

(** A listing whose nodes all carry the zone label and whose first node
    carries the region label. *)
Lemma zoneLoop_ok (items : list Node) :
  Forall (λ node, is_Some (zoneOf node)) items ->
  (∀ first, head items = Some first -> is_Some (regionOf first)) ->
  zoneLoop 0 items ∅ EmptyString
  = (Some (sets_List (zoneSet items)),
     default EmptyString (head items ≫= regionOf), None).
Proof.
  intros Hall Hreg. destruct Hall as [|first rest [zone Hz] Hall]; [done|].
  destruct (Hreg first eq_refl) as [region Hr]. simpl.
  rewrite (getZoneNameForNode_found _ _ Hz), (getRegionNameForNode_found _ _ Hr).
  rewrite (zoneLoop_rest_ok _ _ _ _ Hall), (zoneSet_cons_found _ _ _ Hz), Hr.
  simpl. do 3 f_equal. apply (f_equal sets_List).
  by rewrite (right_id_L ∅ (∪)), (comm_L (∪)).
Qed.

End ZoneFacts.

(** ** Zone discovery on well-labelled listings *)

(** C4. When every listed node carries the zone label and the first one
    carries the region label, [getZoneNames] returns, without error, the
    zone label values of all nodes as a sorted sequence without duplicates,
    together with the region label value of the first node (the empty string
    for an empty listing). *)
Theorem getZoneNames_all_labelled {labels : WellKnownLabels}
    (client : Clientset) (items : list Node) :
  NodesList client = inl items ->
  Forall (λ node, is_Some (zoneOf node)) items ->
  (∀ first, head items = Some first -> is_Some (regionOf first)) ->
  ∃ zones,
    getZoneNames (Some client)
    = Returns (Some zones, default EmptyString (head items ≫= regionOf), None)
    ∧ Sorted string_le zones
    ∧ NoDup zones
    ∧ ∀ zone, zone ∈ zones ↔ ∃ node, node ∈ items ∧ zoneOf node = Some zone.
Proof.
  intros Hlist Hall Hreg. exists (sets_List (zoneSet items)).
  split; [|split; [|split]].
  - unfold getZoneNames. rewrite Hlist. by rewrite (zoneLoop_ok _ Hall Hreg).
  - apply sets_List_Sorted.
  - apply sets_List_NoDup.
  - intros zone. rewrite elem_of_sets_List. apply elem_of_zoneSet.
Qed.

Lemma getZoneNames_all_labelled_witness :
  ∃ zones,
    @getZoneNames k8sLabels (Some (listing eastNodes))
    = Returns (Some zones,
               default EmptyString (head eastNodes ≫= @regionOf k8sLabels), None)
    ∧ Sorted string_le zones
    ∧ NoDup zones
    ∧ ∀ zone, zone ∈ zones
        ↔ ∃ node, node ∈ eastNodes ∧ @zoneOf k8sLabels node = Some zone.
Proof.
  apply (@getZoneNames_all_labelled k8sLabels (listing eastNodes) eastNodes).
  - reflexivity.
  - repeat constructor; vm_compute; eexists; reflexivity.
  - intros first [= <-]. vm_compute. eexists; reflexivity.
Defined.

(** The two listings the specification gives as examples. *)
Example getZoneNames_east :
  @getZoneNames k8sLabels (Some (listing eastNodes))
  = Returns (Some ["us-east-1a"; "us-east-1b"], "us-east-1", None).
Proof. vm_compute. reflexivity. Qed.

Example getZoneNames_no_nodes :
  @getZoneNames k8sLabels (Some (listing []))
  = Returns (Some [], EmptyString, None).
Proof. vm_compute. reflexivity. Qed.

(** ** Zone discovery on listings with a missing label *)

Lemma first_missing_zone {labels : WellKnownLabels} (items : list Node) (node : Node) :
  node ∈ items -> zoneOf node = None ->
  ∃ pre bad post,
    items = pre ++ bad :: post
    ∧ Forall (λ n, is_Some (zoneOf n)) pre ∧ zoneOf bad = None.
Proof.
  induction items as [|n rest IH]; intros Hin Hmiss.
  - by apply elem_of_nil in Hin.
  - destruct (zoneOf n) as [zone|] eqn:Hz.
    + apply elem_of_cons in Hin as [->|Hin]; [congruence|].
      destruct (IH Hin Hmiss) as (pre & bad & post & -> & Hpre & Hbad).
      exists (n :: pre), bad, post. split; [done|]. split; [|done].
      constructor; [by rewrite Hz|done].
    + by exists [], n, rest.
Qed.

(** What [getZoneNames] does on a listing whose first node without the zone
    label is [node]. *)
Lemma zoneLoop_missing_zone {labels : WellKnownLabels}
    (pre : list Node) (node : Node) (post : list Node) :
  Forall (λ n, is_Some (zoneOf n)) pre ->
  zoneOf node = None ->
  zoneLoop 0 (pre ++ node :: post) ∅ EmptyString
  = (None, EmptyString,
     Some (match head pre with
           | Some first =>
               match regionOf first with
               | Some _ => zoneNotFound node
               | None => regionNotFound first
               end
           | None => zoneNotFound node
           end)).
Proof.
  intros Hpre Hmiss. destruct Hpre as [|first pre [zone Hz] Hpre]; simpl.
  - by rewrite (getZoneNameForNode_missing _ Hmiss).
  - rewrite (getZoneNameForNode_found _ _ Hz).
    destruct (regionOf first) as [region|] eqn:Hr.
    + rewrite (getRegionNameForNode_found _ _ Hr).
      by rewrite (zoneLoop_rest_missing _ _ _ _ _ _ Hpre Hmiss).
    + by rewrite (getRegionNameForNode_missing _ Hr).
Qed.

(** C5, as the claim states it, fails: the first node carries the zone label
    but not the region label, the second node carries no zone label, and the
    error names the first node and the region key. *)
Lemma getZoneNames_missing_zone_counterexample :
  Forall (λ n, is_Some (@zoneOf k8sLabels n)) [zonedNode "node-a" "zone-1" None]
  ∧ @zoneOf k8sLabels (unlabelledNode "node-b") = None
  ∧ @getZoneNames k8sLabels (Some (listing brokenNodes))
    = Returns (None, EmptyString,
        Some "Region name for node node-a not found. No label with key failure-domain.beta.kubernetes.io/region")
  ∧ @getZoneNames k8sLabels (Some (listing brokenNodes))
    <> Returns (None, EmptyString,
         Some (@zoneNotFound k8sLabels (unlabelledNode "node-b"))).
Proof.
  split; [|split; [|split]].
  - repeat constructor. vm_compute. by eexists.
  - reflexivity.
  - vm_compute. reflexivity.
  - vm_compute. discriminate.
Qed.

(** C5, amended. On a listing that contains a node without the zone label,
    [getZoneNames] returns a nil zone list, an empty region and an error.
    The error names the first node without the zone label and the zone key,
    provided the first listed node carries the region label or is itself
    that node; when the first listed node carries the zone label but not
    the region label, the error names the first listed node and the region
    key. *)
Theorem getZoneNames_missing_zone {labels : WellKnownLabels}
    (client : Clientset) (pre : list Node) (node : Node) (post : list Node) :
  NodesList client = inl (pre ++ node :: post) ->
  Forall (λ n, is_Some (zoneOf n)) pre ->
  zoneOf node = None ->
  ∃ err,
    getZoneNames (Some client) = Returns (None, EmptyString, Some err)
    ∧ ((∀ first, head pre = Some first -> is_Some (regionOf first)) ->
       err = zoneNotFound node)
    ∧ (∀ first, head pre = Some first -> regionOf first = None ->
       err = regionNotFound first).
Proof.
  intros Hlist Hpre Hmiss. eexists. split; [|split].
  - unfold getZoneNames. rewrite Hlist.
    by rewrite (zoneLoop_missing_zone _ _ _ Hpre Hmiss).
  - intros Hreg. destruct (head pre) as [first|]; [|done].
    by destruct (Hreg first eq_refl) as [region ->].
  - intros first Hhead Hr. rewrite Hhead. by rewrite Hr.
Qed.

Lemma getZoneNames_missing_zone_witness :
  ∃ err,
    @getZoneNames k8sLabels
      (Some (listing ([zonedNode "node-1" "us-east-1a" (Some "us-east-1")]
                      ++ unlabelledNode "node-2" :: [])))
    = Returns (None, EmptyString, Some err)
    ∧ ((∀ first, head [zonedNode "node-1" "us-east-1a" (Some "us-east-1")] = Some first ->
          is_Some (@regionOf k8sLabels first)) ->
       err = @zoneNotFound k8sLabels (unlabelledNode "node-2"))
    ∧ (∀ first, head [zonedNode "node-1" "us-east-1a" (Some "us-east-1")] = Some first ->
          @regionOf k8sLabels first = None ->
       err = @regionNotFound k8sLabels first).
Proof.
  apply (@getZoneNames_missing_zone k8sLabels
           (listing ([zonedNode "node-1" "us-east-1a" (Some "us-east-1")]
                     ++ unlabelledNode "node-2" :: []))
           [zonedNode "node-1" "us-east-1a" (Some "us-east-1")]
           (unlabelledNode "node-2") []).
  - reflexivity.
  - repeat constructor. vm_compute. eexists; reflexivity.
  - reflexivity.
Defined.

(** The specification's example: the second node lacks the zone label. *)
Example getZoneNames_second_node_unlabelled :
  @getZoneNames k8sLabels
    (Some (listing [zonedNode "node-1" "us-east-1a" (Some "us-east-1");
                    unlabelledNode "node-2"]))
  = Returns (None, EmptyString,
      Some "Zone name for node node-2 not found. No label with key failure-domain.beta.kubernetes.io/zone").
Proof. vm_compute. reflexivity. Qed.




Example getZoneNames_first_node_without_region :
  @getZoneNames k8sLabels
    (Some (listing [zonedNode "node-b" "zone-2" None;
                    zonedNode "node-a" "zone-1" (Some "region-1")]))
  = Returns (None, EmptyString,
      Some "Region name for node node-b not found. No label with key failure-domain.beta.kubernetes.io/region").
Proof. vm_compute. reflexivity. Qed.

(** ** Listing order *)

(** C9, as the claim states it, fails: the same two nodes, listed in the two
    possible orders, give a zone list in one order and none in the other. *)
Lemma getZoneNames_listing_order_counterexample :
  mixedNodes ≡ₚ reverse mixedNodes
  ∧ @getZoneNames k8sLabels (Some (listing mixedNodes))
    = Returns (Some ["zone-1"; "zone-2"], "region-1", None)
  ∧ @getZoneNames k8sLabels (Some (listing (reverse mixedNodes)))
    = Returns (None, EmptyString,
        Some "Region name for node node-b not found. No label with key failure-domain.beta.kubernetes.io/region").
Proof.
  split; [|split].
  - symmetry. apply reverse_Permutation.
  - vm_compute. reflexivity.
  - vm_compute. reflexivity.
Qed.

(** C9, amended. Two listings of the same nodes, in any order, give the same
    zone list whenever both runs succeed, which they do when every node
    carries the zone label and the first node of each listing carries the
    region label. *)
Theorem getZoneNames_listing_order {labels : WellKnownLabels}
    (client1 client2 : Clientset) (items1 items2 : list Node) :
  NodesList client1 = inl items1 ->
  NodesList client2 = inl items2 ->
  items1 ≡ₚ items2 ->
  Forall (λ node, is_Some (zoneOf node)) items1 ->
  (∀ first, head items1 = Some first -> is_Some (regionOf first)) ->
  (∀ first, head items2 = Some first -> is_Some (regionOf first)) ->
  ∃ zones region1 region2,
    getZoneNames (Some client1) = Returns (Some zones, region1, None)
    ∧ getZoneNames (Some client2) = Returns (Some zones, region2, None).
Proof.
  intros Hlist1 Hlist2 Hperm Hall1 Hreg1 Hreg2.
  assert (Hall2 : Forall (λ node, is_Some (zoneOf node)) items2)
    by (by rewrite <- Hperm).
  exists (sets_List (zoneSet items1)).
  exists (default EmptyString (head items1 ≫= regionOf)).
  exists (default EmptyString (head items2 ≫= regionOf)).
  unfold getZoneNames. rewrite Hlist1, Hlist2.
  rewrite (zoneLoop_ok _ Hall1 Hreg1), (zoneLoop_ok _ Hall2 Hreg2).
  by rewrite (zoneSet_Permutation _ _ Hperm).
Qed.

Lemma getZoneNames_listing_order_witness :
  ∃ zones region1 region2,
    @getZoneNames k8sLabels (Some (listing eastNodes))
    = Returns (Some zones, region1, None)
    ∧ @getZoneNames k8sLabels
        (Some (listing [zonedNode "node-1" "us-east-1a" (Some "us-east-1");
                        zonedNode "node-3" "us-east-1a" None;
                        zonedNode "node-2" "us-east-1b" None]))
      = Returns (Some zones, region2, None).
Proof.
  apply (@getZoneNames_listing_order k8sLabels
           (listing eastNodes)
           (listing [zonedNode "node-1" "us-east-1a" (Some "us-east-1");
                     zonedNode "node-3" "us-east-1a" None;
                     zonedNode "node-2" "us-east-1b" None])
           eastNodes
           [zonedNode "node-1" "us-east-1a" (Some "us-east-1");
            zonedNode "node-3" "us-east-1a" None;
            zonedNode "node-2" "us-east-1b" None]).
  - reflexivity.
  - reflexivity.
  - unfold eastNodes. apply perm_skip, perm_swap.
  - repeat constructor; vm_compute; eexists; reflexivity.
  - intros first [= <-]. vm_compute. eexists; reflexivity.
  - intros first [= <-]. vm_compute. eexists; reflexivity.
Defined.

(** ** Health probe *)

(** C2. The probe returns a status, never an error. For a client with a
    discovery handle whose request to /healthz gives [(body, err)]: a request
    error gives exactly the condition Offline=true; a response that does not
    fold to ok gives exactly Ready=false, Offline=false; a response that
    folds to ok gives exactly Ready=true. The status is one of these three,
    so never empty, and any other client whose request gives the same body
    and an error in the same cases gets the same status. *)
Theorem GetClusterHealthStatus_cases (currentTime : Time) (self : ClusterClient)
    (dc : DiscoveryClient) (body : string) (err : option error) :
  discoveryClient self = Some dc ->
  Raw dc "/healthz" = (body, err) ->
  ∃ status,
    GetClusterHealthStatus currentTime self = Returns status
    ∧ (is_Some err ->
       conditionKinds status = [(ClusterOffline, ConditionTrue)])
    ∧ (err = None -> EqualFold body "ok" = false ->
       conditionKinds status
       = [(ClusterReady, ConditionFalse); (ClusterOffline, ConditionFalse)])
    ∧ (err = None -> EqualFold body "ok" = true ->
       conditionKinds status = [(ClusterReady, ConditionTrue)])
    ∧ conditionKinds status
        ∈ [[(ClusterOffline, ConditionTrue)];
           [(ClusterReady, ConditionFalse); (ClusterOffline, ConditionFalse)];
           [(ClusterReady, ConditionTrue)]]
    ∧ Forall (λ c, LastProbeTime c = currentTime ∧ LastTransitionTime c = currentTime)
        (Conditions status)
    ∧ ∀ self' dc' err',
        discoveryClient self' = Some dc' ->
        Raw dc' "/healthz" = (body, err') ->
        (is_Some err' ↔ is_Some err) ->
        GetClusterHealthStatus currentTime self' = Returns status.
Proof.
  intros Hdc Hraw. unfold GetClusterHealthStatus. rewrite Hdc, Hraw.
  assert (Hsame : ∀ self' dc' err' status,
    discoveryClient self' = Some dc' ->
    Raw dc' "/healthz" = (body, err') ->
    (is_Some err' ↔ is_Some err) ->
    match err with
    | Some _ => Returns (mkClusterStatus ([] ++ [newNodeOfflineCondition currentTime]))
    | None =>
        if negb (EqualFold body "ok")
        then Returns (mkClusterStatus
               ([] ++ [newClusterNotReadyCondition currentTime;
                       newNodeNotOfflineCondition currentTime]))
        else Returns (mkClusterStatus ([] ++ [newClusterReadyCondition currentTime]))
    end = Returns status ->
    GetClusterHealthStatus currentTime self' = Returns status).
  { intros self' dc' err' status Hdc' Hraw' Hiff <-.
    unfold GetClusterHealthStatus. rewrite Hdc', Hraw'. simpl.
    destruct err as [e|], err' as [e'|]; try done.
    - destruct Hiff as [_ Hsome]. by destruct (Hsome (mk_is_Some _ _ eq_refl)).
    - destruct Hiff as [Hsome _]. by destruct (Hsome (mk_is_Some _ _ eq_refl)). }
  destruct err as [e|]; [|destruct (EqualFold body "ok") eqn:Hfold]; simpl;
    eexists; (split; [reflexivity|]); split_and!;
    try done; try (by intros [? ?]); try (by repeat constructor);
    try (intros self' dc' err' Hdc' Hraw' Hiff;
         by apply (Hsame self' dc' err' _ Hdc' Hraw' Hiff)).
Qed.

Lemma GetClusterHealthStatus_cases_witness :
  ∃ status,
    GetClusterHealthStatus 1467331200%Z (answering "OK" None) = Returns status
    ∧ conditionKinds status = [(ClusterReady, ConditionTrue)].
Proof.
  destruct (GetClusterHealthStatus_cases 1467331200%Z (answering "OK" None)
              (mkDiscoveryClient (fun _ => ("OK", None))) "OK" None
              eq_refl eq_refl)
    as (status & Hret & _ & _ & Hok & _).
  exists status. split; [exact Hret|]. apply Hok; reflexivity.
Defined.

(** The three examples of the specification. *)
Example GetClusterHealthStatus_OK (now : Time) :
  GetClusterHealthStatus now (answering "OK" None)
  = Returns (mkClusterStatus [newClusterReadyCondition now]).
Proof. reflexivity. Qed.

Example GetClusterHealthStatus_fail (now : Time) :
  GetClusterHealthStatus now (answering "fail" None)
  = Returns (mkClusterStatus
      [newClusterNotReadyCondition now; newNodeNotOfflineCondition now]).
Proof. reflexivity. Qed.

Example GetClusterHealthStatus_timeout (now : Time) :
  GetClusterHealthStatus now
    (answering EmptyString (Some "net/http: request canceled (Client.Timeout exceeded)"))
  = Returns (mkClusterStatus [newNodeOfflineCondition now]).
Proof. reflexivity. Qed.

(** A client built without an endpoint has no discovery handle. *)
Example GetClusterHealthStatus_no_handle (now : Time) :
  GetClusterHealthStatus now (mkClusterClient None None) = Panics.
Proof. reflexivity. Qed.

(** C10. When the request succeeds and the body does not fold to ok, the
    status holds exactly two conditions, in this order: Ready=false with
    reason ClusterNotReady, then Offline=false with reason
    ClusterReachable. *)
Theorem GetClusterHealthStatus_not_ok (currentTime : Time) (self : ClusterClient)
    (dc : DiscoveryClient) (body : string) :
  discoveryClient self = Some dc ->
  Raw dc "/healthz" = (body, None) ->
  EqualFold body "ok" = false ->
  GetClusterHealthStatus currentTime self
  = Returns (mkClusterStatus
      [ {| Type_ := ClusterReady;
           Status := ConditionFalse;
           Reason := "ClusterNotReady";
           Message := "/healthz responded without ok";
           LastProbeTime := currentTime;
           LastTransitionTime := currentTime |};
        {| Type_ := ClusterOffline;
           Status := ConditionFalse;
           Reason := "ClusterReachable";
           Message := "cluster is reachable";
           LastProbeTime := currentTime;
           LastTransitionTime := currentTime |} ]).
Proof.
  intros Hdc Hraw Hfold. unfold GetClusterHealthStatus.
  by rewrite Hdc, Hraw, Hfold.
Qed.

Lemma GetClusterHealthStatus_not_ok_witness :
  GetClusterHealthStatus 1467331200%Z (answering "fail" None)
  = Returns (mkClusterStatus
      [ {| Type_ := ClusterReady;
           Status := ConditionFalse;
           Reason := "ClusterNotReady";
           Message := "/healthz responded without ok";
           LastProbeTime := 1467331200%Z;
           LastTransitionTime := 1467331200%Z |};
        {| Type_ := ClusterOffline;
           Status := ConditionFalse;
           Reason := "ClusterReachable";
           Message := "cluster is reachable";
           LastProbeTime := 1467331200%Z;
           LastTransitionTime := 1467331200%Z |} ]).
Proof.
  apply (GetClusterHealthStatus_not_ok 1467331200%Z (answering "fail" None)
           (mkDiscoveryClient (fun _ => ("fail", None))) "fail").
  - reflexivity.
  - reflexivity.
  - reflexivity.
Defined.

(** *** What folds to ok *)

Lemma stripPrefix_Some (p s r : string) : stripPrefix p s = Some r -> s = p +:+ r.
Proof.
  revert s. induction p as [|a p IH]; intros s; simpl.
  - by intros [= ->].
  - destruct s as [|b s]; [done|].
    destruct (Ascii.eqb a b) eqn:Hab; [|done].
    apply Ascii.eqb_eq in Hab as ->. intros Hs. by rewrite (IH _ Hs).
Qed.

Lemma asciiFoldEq_o (c : ascii) :
  asciiFoldEq c "o" = true -> c = "o"%char ∨ c = "O"%char.
Proof.
  destruct c as [[] [] [] [] [] [] [] []]; vm_compute; intros; try discriminate; auto.
Qed.

Lemma asciiFoldEq_k (c : ascii) :
  asciiFoldEq c "k" = true -> c = "k"%char ∨ c = "K"%char.
Proof.
  destruct c as [[] [] [] [] [] [] [] []]; vm_compute; intros; try discriminate; auto.
Qed.

Lemma EqualFold_nil (s : string) : EqualFold s EmptyString = true -> s = EmptyString.
Proof. by destruct s. Qed.

(** Besides the four spellings of ok in ASCII letters, the letter o or O
    followed by the Kelvin sign folds to ok. *)
Lemma EqualFold_ok (body : string) :
  EqualFold body "ok" = true
  ↔ body ∈ ["ok"; "oK"; "Ok"; "OK"; "o" +:+ kelvinSign; "O" +:+ kelvinSign].
Proof.
  split.
  - destruct body as [|a s]; [done|]. cbn [EqualFold].
    destruct (asciiFoldEq a "o") eqn:Ha; [|done].
    intros Hk.
    assert (Hs : s ∈ ["k"; "K"; kelvinSign]).
    { destruct s as [|b s]; [done|]. cbn [EqualFold] in Hk.
      destruct (asciiFoldEq b "k") eqn:Hb.
      - apply EqualFold_nil in Hk as ->.
        destruct (asciiFoldEq_k _ Hb) as [-> | ->]; repeat constructor.
      - change (isLetter 107 "k") with true in Hk. cbn iota in Hk.
        destruct (stripPrefix kelvinSign (String b s)) as [r|] eqn:Hr; [|done].
        apply EqualFold_nil in Hk as ->.
        apply stripPrefix_Some in Hr as ->. repeat constructor. }
    destruct (asciiFoldEq_o _ Ha) as [-> | ->];
      repeat (apply elem_of_cons in Hs as [->|Hs]; [by repeat constructor|]);
      by apply elem_of_nil in Hs.
  - intros Hin.
    repeat (apply elem_of_cons in Hin as [->|Hin]; [by vm_compute|]).
    by apply elem_of_nil in Hin.
Qed.

(** ** Endpoint selection *)

Section Endpoint.
Context {netLib : NetLib}.

Lemma serverAddressLoop_no_match (hostIP : IP) (items : list ServerAddressByClientCIDR)
    (serverAddress : string) :
  Forall (noMatch hostIP) items ->
  serverAddressLoop hostIP items serverAddress = inl serverAddress.
Proof.
  induction 1 as [|item rest (cidrnet & Hparse & Hout) _ IH]; simpl; [done|].
  by rewrite Hparse, Hout.
Qed.

Lemma serverAddressLoop_match (hostIP : IP) (pre : list ServerAddressByClientCIDR)
    (item : ServerAddressByClientCIDR) (post : list ServerAddressByClientCIDR)
    (serverAddress : string) :
  Forall (noMatch hostIP) pre ->
  isMatch hostIP item ->
  serverAddressLoop hostIP (pre ++ item :: post) serverAddress
  = inl (ServerAddress item).
Proof.
  intros Hpre (cidrnet & Hparse & Hin).
  induction Hpre as [|p rest (pnet & Hp & Hout) _ IH]; simpl.
  - by rewrite Hparse, Hin.
  - by rewrite Hp, Hout.
Qed.


(** C3. The loop takes the pairs in their order and yields the server
    address of the first pair whose CIDR holds the host address, whatever
    follows that pair; when no pair's CIDR holds it the address stays
    empty, as it does for an empty list. The pairs before the first match
    are read as CIDRs: each of them parses. *)
Theorem serverAddressLoop_first_match (hostIP : IP)
    (pre : list ServerAddressByClientCIDR) :
  Forall (noMatch hostIP) pre ->
  serverAddressLoop hostIP pre EmptyString = inl EmptyString
  ∧ (∀ item post,
       isMatch hostIP item ->
       serverAddressLoop hostIP (pre ++ item :: post) EmptyString
       = inl (ServerAddress item))
  ∧ serverAddressLoop hostIP [] EmptyString = inl EmptyString.
Proof.
  intros Hpre. split; [|split].
  - by apply serverAddressLoop_no_match.
  - intros item post Hin. by apply serverAddressLoop_match.
  - reflexivity.
Qed.

End Endpoint.

Lemma noMatch_example (address : string) :
  @noMatch IPv4.net (Some 167837953%N)
    (mkServerAddressByClientCIDR "192.168.0.0/16" address).
Proof. exists (3232235520, 4294901760)%N. split; vm_compute; reflexivity. Defined.

Lemma isMatch_example (address : string) :
  @isMatch IPv4.net (Some 167837953%N)
    (mkServerAddressByClientCIDR "10.0.0.0/8" address).
Proof. exists (167772160, 4278190080)%N. split; vm_compute; reflexivity. Defined.

Lemma serverAddressLoop_first_match_witness :
  @serverAddressLoop IPv4.net (Some 167837953%N)
    [mkServerAddressByClientCIDR "192.168.0.0/16" "https://192.168.0.1"] EmptyString
  = inl EmptyString
  ∧ @serverAddressLoop IPv4.net (Some 167837953%N)
      ([mkServerAddressByClientCIDR "192.168.0.0/16" "https://192.168.0.1"]
       ++ mkServerAddressByClientCIDR "10.0.0.0/8" "https://10.0.0.1"
          :: [mkServerAddressByClientCIDR "10.1.0.0/16" "https://10.1.0.1"])
      EmptyString
    = inl "https://10.0.0.1".
Proof.
  destruct (@serverAddressLoop_first_match IPv4.net (Some 167837953%N)
              [mkServerAddressByClientCIDR "192.168.0.0/16" "https://192.168.0.1"])
    as (Hnone & Hfirst & _).
  - constructor; [apply noMatch_example|constructor].
  - split; [exact Hnone|].
    apply (Hfirst (mkServerAddressByClientCIDR "10.0.0.0/8" "https://10.0.0.1")).
    apply isMatch_example.
Defined.

(** ** Client construction *)

(** C1. On a spec none of whose CIDRs holds the host address, the factory
    returns no error and a client that is not nil and has both handles nil,
    where a nil client is called for: the later paths of the same function
    return a nil client as soon as a handle is nil, and the health probe
    and the zone discovery panic on the client returned here. *)
Lemma NewClusterClientSet_no_endpoint_returns_client :
  Forall (@noMatch IPv4.net (Some 167837953%N))
    (ServerAddressByClientCIDRs
       (Spec (clusterWith [("192.168.0.0/16", "https://192.168.0.1")])))
  ∧ @NewClusterClientSet IPv4.net (IPv4.host "10.1.1.1" podEnv (inr "no service account"))
      IPv4.clients IPv4.build (staticGetter (inl "kubeconfig"))
      (clusterWith [("192.168.0.0/16", "https://192.168.0.1")])
    = Returns (Some (mkClusterClient None None), None)
  ∧ @NewClusterClientSet IPv4.net (IPv4.host "10.1.1.1" podEnv (inr "no service account"))
      IPv4.clients IPv4.build (staticGetter (inl "kubeconfig"))
      (clusterWith [("192.168.0.0/16", "https://192.168.0.1")])
    <> Returns (None, None).
Proof.
  split; [|split].
  - constructor; [apply noMatch_example|constructor].
  - vm_compute. reflexivity.
  - vm_compute. discriminate.
Qed.

Section Construction.
Context {netLib : NetLib} {hostEnv : HostEnv} {clientLib : ClientLib}
  {buildLib : BuildLib}.

(** The no-endpoint path and the failed-resolver path as the code has
    them. With the host address known: when every CIDR of the spec parses
    and none holds the host address, the factory returns a client that is
    not nil, whose two handles are nil, and no error; when the first
    matching pair has a server address, the resolver in use fails and the
    config builder passes resolver failures on, the factory returns a nil
    client and an error. *)
Theorem NewClusterClientSet_no_endpoint_or_no_credentials
    (kubeconfigGetterFor : Cluster -> KubeconfigGetter) (c : Cluster) (hostIP : IP) :
  ChooseHostInterface = inl hostIP ->
  (Forall (noMatch hostIP) (ServerAddressByClientCIDRs (Spec c)) ->
   NewClusterClientSet kubeconfigGetterFor c
   = Returns (Some (mkClusterClient None None), None))
  ∧ (∀ pre item post resolverErr,
       ServerAddressByClientCIDRs (Spec c) = pre ++ item :: post ->
       Forall (noMatch hostIP) pre ->
       isMatch hostIP item ->
       ServerAddress item <> EmptyString ->
       kubeconfigGetterFor c tt = Returns (inr resolverErr) ->
       (∀ masterUrl getter e,
          getter tt = Returns (inr e) ->
          ∃ e', BuildConfigFromKubeconfigGetter masterUrl getter = Returns (inr e')) ->
       ∃ err, NewClusterClientSet kubeconfigGetterFor c = Returns (None, Some err)).
Proof.
  intros Hhost. unfold NewClusterClientSet. rewrite Hhost. split.
  - intros Hnone. by rewrite (serverAddressLoop_no_match _ _ _ Hnone).
  - intros pre item post resolverErr -> Hpre Hin Haddr Hres Hbuild.
    rewrite (serverAddressLoop_match _ _ _ _ _ Hpre Hin).
    destruct (decide (ServerAddress item <> EmptyString)) as [_|Hempty]; [|done].
    destruct (Hbuild (ServerAddress item) (kubeconfigGetterFor c) _ Hres) as [e' ->].
    by exists e'.
Qed.


End Construction.

Lemma NewClusterClientSet_no_endpoint_or_no_credentials_witness :
  @NewClusterClientSet IPv4.net (IPv4.host "10.1.1.1" podEnv (inr "no service account"))
    IPv4.clients IPv4.build (staticGetter (inr "credentials unavailable"))
    (clusterWith [("192.168.0.0/16", "https://192.168.0.1")])
  = Returns (Some (mkClusterClient None None), None)
  ∧ ∃ err,
      @NewClusterClientSet IPv4.net (IPv4.host "10.1.1.1" podEnv (inr "no service account"))
        IPv4.clients IPv4.build (staticGetter (inr "credentials unavailable"))
        (clusterWith [("192.168.0.0/16", "https://192.168.0.1");
                      ("10.0.0.0/8", "https://10.0.0.1")])
      = Returns (None, Some err).
Proof.
  split.
  - apply (@NewClusterClientSet_no_endpoint_or_no_credentials IPv4.net
             (IPv4.host "10.1.1.1" podEnv (inr "no service account"))
             IPv4.clients IPv4.build (staticGetter (inr "credentials unavailable"))
             (clusterWith [("192.168.0.0/16", "https://192.168.0.1")])
             (Some 167837953%N) eq_refl).
    constructor; [apply noMatch_example|constructor].
  - apply (proj2 (@NewClusterClientSet_no_endpoint_or_no_credentials IPv4.net
             (IPv4.host "10.1.1.1" podEnv (inr "no service account"))
             IPv4.clients IPv4.build (staticGetter (inr "credentials unavailable"))
             (clusterWith [("192.168.0.0/16", "https://192.168.0.1");
                           ("10.0.0.0/8", "https://10.0.0.1")])
             (Some 167837953%N) eq_refl)
           [mkServerAddressByClientCIDR "192.168.0.0/16" "https://192.168.0.1"]
           (mkServerAddressByClientCIDR "10.0.0.0/8" "https://10.0.0.1")
           [] "credentials unavailable").
    + reflexivity.
    + constructor; [apply noMatch_example|constructor].
    + apply isMatch_example.
    + discriminate.
    + reflexivity.
    + intros masterUrl getter e Hget. exists e. simpl. unfold IPv4.buildConfig.
      rewrite Hget. reflexivity.
Defined.



(** ** Default credential resolver *)

Section Resolver.
Context {netLib : NetLib} {hostEnv : HostEnv} {clientLib : ClientLib}.

(** C8. The default resolver fails with an error of its own in each of
    three cases: POD_NAMESPACE is empty or unset; the secret the cluster
    refers to cannot be fetched; the fetched secret has no data under the
    key kubeconfig, which the error names. The three messages differ,
    whatever the fetch error is. *)
Theorem KubeconfigGetterForCluster_errors (c : Cluster) :
  (Getenv "POD_NAMESPACE" = EmptyString ->
   KubeconfigGetterForCluster c tt
   = Returns (inr "unexpected: POD_NAMESPACE env var returned empty string"))
  ∧ (∀ client name fetchErr,
       Getenv "POD_NAMESPACE" <> EmptyString ->
       NewInCluster = inl client ->
       SecretRef (Spec c) = Some name ->
       SecretsGet client (Getenv "POD_NAMESPACE") name = inr fetchErr ->
       KubeconfigGetterForCluster c tt
       = Returns (inr ("error in fetching secret: " +:+ fetchErr)))
  ∧ (∀ client name secret,
       Getenv "POD_NAMESPACE" <> EmptyString ->
       NewInCluster = inl client ->
       SecretRef (Spec c) = Some name ->
       SecretsGet client (Getenv "POD_NAMESPACE") name = inl secret ->
       Data secret !! "kubeconfig" = None ->
       KubeconfigGetterForCluster c tt
       = Returns (inr "secret does not have data with key: kubeconfig"))
  ∧ (∀ fetchErr : error,
       "unexpected: POD_NAMESPACE env var returned empty string"
         <> "error in fetching secret: " +:+ fetchErr
       ∧ "unexpected: POD_NAMESPACE env var returned empty string"
         <> "secret does not have data with key: kubeconfig"
       ∧ "error in fetching secret: " +:+ fetchErr
         <> "secret does not have data with key: kubeconfig").
Proof.
  unfold KubeconfigGetterForCluster. split_and!.
  - intros ->. by rewrite decide_True.
  - intros client name fetchErr Hns -> -> Hget.
    rewrite decide_False by done. by rewrite Hget.
  - intros client name secret Hns -> -> Hget Hkey.
    rewrite decide_False by done. rewrite Hget.
    unfold KubeconfigSecretDataKey. by rewrite Hkey.
  - intros fetchErr. split_and!; discriminate.
Qed.

End Resolver.

Lemma KubeconfigGetterForCluster_errors_witness :
  @KubeconfigGetterForCluster IPv4.net
    (IPv4.host "10.1.1.1" ∅ (inr "no service account")) IPv4.clients
    (clusterWith []) tt
  = Returns (inr "unexpected: POD_NAMESPACE env var returned empty string")
  ∧ @KubeconfigGetterForCluster IPv4.net
      (IPv4.host "10.1.1.1" podEnv
         (inl (mkInClusterClient (fun _ _ => inr "secret not found"))))
      IPv4.clients (clusterWith []) tt
    = Returns (inr "error in fetching secret: secret not found")
  ∧ @KubeconfigGetterForCluster IPv4.net
      (IPv4.host "10.1.1.1" podEnv
         (inl (mkInClusterClient (fun _ _ => inl (mkSecret {["token" := "abc"]})))))
      IPv4.clients (clusterWith []) tt
    = Returns (inr "secret does not have data with key: kubeconfig").
Proof.
  split_and!.
  - apply (@KubeconfigGetterForCluster_errors IPv4.net
             (IPv4.host "10.1.1.1" ∅ (inr "no service account")) IPv4.clients
             (clusterWith [])).
    reflexivity.
  - apply (proj1 (proj2 (@KubeconfigGetterForCluster_errors IPv4.net
             (IPv4.host "10.1.1.1" podEnv
                (inl (mkInClusterClient (fun _ _ => inr "secret not found"))))
             IPv4.clients (clusterWith [])))
           (mkInClusterClient (fun _ _ => inr "secret not found"))
           "member-secret" "secret not found").
    + vm_compute. discriminate.
    + reflexivity.
    + reflexivity.
    + reflexivity.
  - apply (proj1 (proj2 (proj2 (@KubeconfigGetterForCluster_errors IPv4.net
             (IPv4.host "10.1.1.1" podEnv
                (inl (mkInClusterClient (fun _ _ => inl (mkSecret {["token" := "abc"]})))))
             IPv4.clients (clusterWith []))))
           (mkInClusterClient (fun _ _ => inl (mkSecret {["token" := "abc"]})))
           "member-secret" (mkSecret {["token" := "abc"]})).
    + vm_compute. discriminate.
    + reflexivity.
    + reflexivity.
    + reflexivity.
    + vm_compute. reflexivity.
Defined.

(** The resolver on a secret that holds a kubeconfig, and the factory on a
    spec with a matching pair. *)
Example KubeconfigGetterForCluster_loads :
  @KubeconfigGetterForCluster IPv4.net
    (IPv4.host "10.1.1.1" podEnv
       (inl (mkInClusterClient (fun _ _ => inl (mkSecret {["kubeconfig" := "doc"]})))))
    IPv4.clients (clusterWith []) tt
  = Returns (inl "doc").
Proof. vm_compute. reflexivity. Qed.

Example NewClusterClientSet_builds_both_handles :
  ∃ dc kc,
    @NewClusterClientSet IPv4.net (IPv4.host "10.1.1.1" podEnv (inr "no service account"))
      IPv4.clients IPv4.build (staticGetter (inl "kubeconfig"))
      (clusterWith [("192.168.0.0/16", "https://192.168.0.1");
                    ("10.0.0.0/8", "https://10.0.0.1")])
    = Returns (Some (mkClusterClient (Some dc) (Some kc)), None).
Proof. do 2 eexists. vm_compute. reflexivity. Qed.

(** * Further properties of the cluster client *)

(** ** Labels *)

(** Go visits a map in an order of its choosing. Whatever the order, the
    loop of [getZoneNameForNode] and [getRegionNameForNode] finds the value
    stored under the key, and the two functions return it, or the error
    that names the node and the key when the label is absent. *)
Theorem label_lookup_any_order {labels : WellKnownLabels} (node : Node)
    (kvs : list (string * string)) (want : string) :
  kvs ≡ₚ map_to_list (Labels node) ->
  rangeFind want kvs = Labels node !! want
  ∧ getZoneNameForNode node
    = match Labels node !! LabelZoneFailureDomain with
      | Some zone => (zone, None)
      | None => (EmptyString, Some (zoneNotFound node))
      end
  ∧ getRegionNameForNode node
    = match Labels node !! LabelZoneRegion with
      | Some region => (region, None)
      | None => (EmptyString, Some (regionNotFound node))
      end.
Proof.
  intros Hperm. split_and!.
  - rewrite <- (rangeFind_lookup want (Labels node)).
    symmetry. apply rangeFind_Permutation; [apply NoDup_fst_map_to_list|done].
  - destruct (Labels node !! LabelZoneFailureDomain) as [zone|] eqn:Hz.
    + by apply getZoneNameForNode_found.
    + by apply getZoneNameForNode_missing.
  - destruct (Labels node !! LabelZoneRegion) as [region|] eqn:Hr.
    + by apply getRegionNameForNode_found.
    + by apply getRegionNameForNode_missing.
Qed.

Lemma label_lookup_any_order_witness :
  rangeFind "failure-domain.beta.kubernetes.io/zone"
    [("failure-domain.beta.kubernetes.io/zone", "us-east-1a");
     ("failure-domain.beta.kubernetes.io/region", "us-east-1")]
  = Some "us-east-1a"
  ∧ rangeFind "failure-domain.beta.kubernetes.io/zone"
      [("failure-domain.beta.kubernetes.io/region", "us-east-1");
       ("failure-domain.beta.kubernetes.io/zone", "us-east-1a")]
    = Some "us-east-1a".
Proof.
  assert (Hlabels :
    Labels (zonedNode "node-1" "us-east-1a" (Some "us-east-1"))
      !! "failure-domain.beta.kubernetes.io/zone" = Some "us-east-1a")
    by (vm_compute; reflexivity).
  assert (Hboth : ∀ kvs,
    kvs ≡ₚ map_to_list (Labels (zonedNode "node-1" "us-east-1a" (Some "us-east-1"))) ->
    rangeFind "failure-domain.beta.kubernetes.io/zone" kvs = Some "us-east-1a").
  { intros kvs Hperm. rewrite <- Hlabels.
    apply (@label_lookup_any_order k8sLabels
             (zonedNode "node-1" "us-east-1a" (Some "us-east-1")) kvs
             "failure-domain.beta.kubernetes.io/zone" Hperm). }
  assert (Hlist : ∃ kvs,
    map_to_list (Labels (zonedNode "node-1" "us-east-1a" (Some "us-east-1"))) = kvs
    ∧ kvs ≡ₚ [("failure-domain.beta.kubernetes.io/zone", "us-east-1a");
              ("failure-domain.beta.kubernetes.io/region", "us-east-1")]).
  { eexists. split; [vm_compute; reflexivity|].
    first [reflexivity | apply perm_swap]. }
  destruct Hlist as (kvs & Hkvs & Hperm). split.
  - apply Hboth. by rewrite Hkvs, Hperm.
  - apply Hboth. rewrite Hkvs, Hperm. apply perm_swap.
Defined.

(** ** Zone discovery: shape of the result *)

Lemma omap_length_le {A B : Type} (f : A -> option B) (l : list A) :
  length (omap f l) <= length l.
Proof.
  induction l as [|a l IH]; simpl; [done|].
  unfold omap in IH. destruct (f a); simpl; lia.
Qed.

Section ZoneResults.
Context {labels : WellKnownLabels}.

Lemma zoneLoop_all_or_nothing (i : nat) (items : list Node) (zoneNames : gset string)
    (region : string) :
  (∃ zones region', zoneLoop i items zoneNames region = (Some zones, region', None))
  ∨ (∃ err, zoneLoop i items zoneNames region = (None, EmptyString, Some err)).
Proof.
  revert i zoneNames region.
  induction items as [|node rest IH]; intros i zoneNames region; simpl.
  - left. by do 2 eexists.
  - destruct (getZoneNameForNode node) as [zoneName [err|]]; [right; by eexists|].
    destruct (Nat.eqb i 0); [|apply IH].
    destruct (getRegionNameForNode node) as [region' [err|]]; [right; by eexists|].
    apply IH.
Qed.

(** What a successful run tells about the listing. *)
Lemma zoneLoop_success (items : list Node) (zones : list string) (region : string) :
  zoneLoop 0 items ∅ EmptyString = (Some zones, region, None) ->
  Forall (λ node, is_Some (zoneOf node)) items
  ∧ (∀ first, head items = Some first -> regionOf first = Some region)
  ∧ (items = [] -> region = EmptyString)
  ∧ zones = sets_List (zoneSet items).
Proof.
  intros Hrun.
  assert (Hall : Forall (λ node, is_Some (zoneOf node)) items).
  { apply Forall_forall. intros node Hin.
    destruct (zoneOf node) as [zone|] eqn:Hz; [by eexists|].
    destruct (first_missing_zone _ _ Hin Hz) as (pre & bad & post & -> & Hpre & Hbad).
    rewrite (zoneLoop_missing_zone _ _ _ Hpre Hbad) in Hrun. discriminate. }
  assert (Hreg : ∀ first, head items = Some first -> is_Some (regionOf first)).
  { intros first Hhead. destruct items as [|n rest]; [done|].
    injection Hhead as ->. apply Forall_cons in Hall as [[zone Hz] _].
    destruct (regionOf first) as [r|] eqn:Hr; [by eexists|].
    simpl in Hrun. rewrite (getZoneNameForNode_found _ _ Hz) in Hrun.
    rewrite (getRegionNameForNode_missing _ Hr) in Hrun. discriminate. }
  rewrite (zoneLoop_ok _ Hall Hreg) in Hrun. injection Hrun as <- <-.
  split_and!; [done| |by intros ->|done].
  intros first Hhead. rewrite Hhead. simpl.
  by destruct (Hreg first Hhead) as [r ->].
Qed.

(** Discovery returns either a zone list and no error, or an error with a
    nil zone list and an empty region: there is no partial result, whatever
    the listing. *)
Theorem getZoneNames_all_or_nothing (client : Clientset)
    (zones : option (list string)) (region : string) (err : option error) :
  getZoneNames (Some client) = Returns (zones, region, err) ->
  (is_Some zones ∧ err = None)
  ∨ (zones = None ∧ region = EmptyString ∧ is_Some err).
Proof.
  unfold getZoneNames. destruct (NodesList client) as [items|listErr].
  - destruct (zoneLoop_all_or_nothing 0 items ∅ EmptyString)
      as [(zs & r & ->)|(e & ->)]; intros [= <- <- <-]; [left|right]; eauto.
  - intros [= <- <- <-]. right. eauto.
Qed.

(** A run that succeeds has seen the zone label on every listed node and
    the region label on the first one, whose value it returns; on an empty
    listing the region is empty. *)
Theorem getZoneNames_success_labelled (client : Clientset) (items : list Node)
    (zones : list string) (region : string) :
  NodesList client = inl items ->
  getZoneNames (Some client) = Returns (Some zones, region, None) ->
  Forall (λ node, is_Some (zoneOf node)) items
  ∧ (∀ first, head items = Some first -> regionOf first = Some region)
  ∧ (items = [] -> region = EmptyString).
Proof.
  unfold getZoneNames. intros -> [= Hrun].
  destruct (zoneLoop_success _ _ _ Hrun) as (Hall & Hreg & Hnil & _). done.
Qed.

(** Discovery never reports more zones than there are nodes. *)
Theorem getZoneNames_zone_count (client : Clientset) (items : list Node)
    (zones : list string) (region : string) :
  NodesList client = inl items ->
  getZoneNames (Some client) = Returns (Some zones, region, None) ->
  length zones <= length items.
Proof.
  unfold getZoneNames. intros -> [= Hrun].
  destruct (zoneLoop_success _ _ _ Hrun) as (_ & _ & _ & ->).
  rewrite sets_List_Permutation. unfold zoneSet.
  etransitivity; [|apply (omap_length_le zoneOf items)].
  apply submseteq_length, NoDup_submseteq; [apply NoDup_elements|].
  intros zone. rewrite elem_of_elements. apply elem_of_list_to_set.
Qed.

(** The zone list depends on the set of zone label values only: two
    listings that succeed and show the same zone values, however many nodes
    carry each, give the same zone list. *)
Theorem getZoneNames_same_zone_values (client1 client2 : Clientset)
    (items1 items2 : list Node) (zones1 zones2 : list string)
    (region1 region2 : string) :
  NodesList client1 = inl items1 ->
  NodesList client2 = inl items2 ->
  getZoneNames (Some client1) = Returns (Some zones1, region1, None) ->
  getZoneNames (Some client2) = Returns (Some zones2, region2, None) ->
  (∀ zone, (∃ node, node ∈ items1 ∧ zoneOf node = Some zone)
           ↔ (∃ node, node ∈ items2 ∧ zoneOf node = Some zone)) ->
  zones1 = zones2.
Proof.
  unfold getZoneNames. intros -> -> [= Hrun1] [= Hrun2] Hsame.
  destruct (zoneLoop_success _ _ _ Hrun1) as (_ & _ & _ & ->).
  destruct (zoneLoop_success _ _ _ Hrun2) as (_ & _ & _ & ->).
  apply (f_equal sets_List). apply set_eq. intros zone.
  rewrite !elem_of_zoneSet. apply Hsame.
Qed.

End ZoneResults.

Lemma getZoneNames_all_or_nothing_witness :
  (is_Some (Some ["us-east-1a"; "us-east-1b"]) ∧ (None : option error) = None)
  ∨ (Some ["us-east-1a"; "us-east-1b"] = None
     ∧ "us-east-1" = EmptyString ∧ is_Some (None : option error)).
Proof.
  apply (@getZoneNames_all_or_nothing k8sLabels (listing eastNodes)
           (Some ["us-east-1a"; "us-east-1b"]) "us-east-1" None).
  vm_compute. reflexivity.
Defined.

Lemma getZoneNames_success_labelled_witness :
  Forall (λ node, is_Some (@zoneOf k8sLabels node)) eastNodes
  ∧ (∀ first, head eastNodes = Some first ->
       @regionOf k8sLabels first = Some "us-east-1")
  ∧ (eastNodes = [] -> "us-east-1" = EmptyString).
Proof.
  apply (@getZoneNames_success_labelled k8sLabels (listing eastNodes) eastNodes
           ["us-east-1a"; "us-east-1b"] "us-east-1").
  - reflexivity.
  - vm_compute. reflexivity.
Defined.

Lemma getZoneNames_zone_count_witness :
  length ["us-east-1a"; "us-east-1b"] <= length eastNodes.
Proof.
  apply (@getZoneNames_zone_count k8sLabels (listing eastNodes) eastNodes
           ["us-east-1a"; "us-east-1b"] "us-east-1").
  - reflexivity.
  - vm_compute. reflexivity.
Defined.

Lemma getZoneNames_same_zone_values_witness :
  ["us-east-1a"; "us-east-1b"] = ["us-east-1a"; "us-east-1b"].
Proof.
  apply (@getZoneNames_same_zone_values k8sLabels
           (listing eastNodes)
           (listing [zonedNode "node-9" "us-east-1b" (Some "us-east-1");
                     zonedNode "node-8" "us-east-1a" None])
           eastNodes
           [zonedNode "node-9" "us-east-1b" (Some "us-east-1");
            zonedNode "node-8" "us-east-1a" None]
           ["us-east-1a"; "us-east-1b"] ["us-east-1a"; "us-east-1b"]
           "us-east-1" "us-east-1").
  - reflexivity.
  - reflexivity.
  - vm_compute. reflexivity.
  - vm_compute. reflexivity.
  - intros zone. unfold eastNodes. split; intros (node & Hin & Hz).
    + repeat (apply elem_of_cons in Hin as [->|Hin]);
        [| | |by apply elem_of_nil in Hin]; injection Hz as <-.
      * exists (zonedNode "node-8" "us-east-1a" None).
        split; [|reflexivity]. apply elem_of_cons; right. apply elem_of_cons; by left.
      * exists (zonedNode "node-9" "us-east-1b" (Some "us-east-1")).
        split; [|reflexivity]. apply elem_of_cons; by left.
      * exists (zonedNode "node-8" "us-east-1a" None).
        split; [|reflexivity]. apply elem_of_cons; right. apply elem_of_cons; by left.
    + repeat (apply elem_of_cons in Hin as [->|Hin]);
        [| |by apply elem_of_nil in Hin]; injection Hz as <-.
      * exists (zonedNode "node-2" "us-east-1b" None).
        split; [|reflexivity]. apply elem_of_cons; right. apply elem_of_cons; by left.
      * exists (zonedNode "node-1" "us-east-1a" (Some "us-east-1")).
        split; [|reflexivity]. apply elem_of_cons; by left.
Defined.

(** ** Endpoint selection: what a result means *)

(** The loop's result read backwards. An address comes from a pair that
    matches, every pair before it parsing and not matching, or it is empty
    and no pair matches; an error is the parse error of a pair that no
    matching pair precedes. *)
Theorem serverAddressLoop_sound {netLib : NetLib} (hostIP : IP)
    (items : list ServerAddressByClientCIDR) :
  match serverAddressLoop hostIP items EmptyString with
  | inl address =>
      (address = EmptyString ∧ Forall (noMatch hostIP) items)
      ∨ (∃ pre item post,
           items = pre ++ item :: post ∧ Forall (noMatch hostIP) pre
           ∧ isMatch hostIP item ∧ address = ServerAddress item)
  | inr err =>
      ∃ pre item post,
        items = pre ++ item :: post ∧ Forall (noMatch hostIP) pre
        ∧ ParseCIDR (ClientCIDR item) = inr err
  end.
Proof.
  induction items as [|item rest IH]; simpl.
  - left. by split.
  - destruct (ParseCIDR (ClientCIDR item)) as [cidrnet|err] eqn:Hparse.
    + destruct (IPNet_Contains cidrnet (ParseIP (IP_String hostIP))) eqn:Hin.
      * right. exists [], item, rest. split_and!; try done. by exists cidrnet.
      * assert (Hno : noMatch hostIP item) by (by exists cidrnet).
        destruct (serverAddressLoop hostIP rest EmptyString) as [address|err].
        -- destruct IH as [[-> Hrest]|(pre & it & post & -> & Hpre & Hit & ->)].
           ++ left. split; [done|by constructor].
           ++ right. exists (item :: pre), it, post. split_and!; try done.
              by constructor.
        -- destruct IH as (pre & it & post & -> & Hpre & Hit).
           exists (item :: pre), it, post. split_and!; try done. by constructor.
    + exists [], item, rest. by split_and!.
Qed.

(** ** Client construction: the client that comes back *)

Section Clients.
Context {netLib : NetLib} {hostEnv : HostEnv} {clientLib : ClientLib}
  {buildLib : BuildLib} {labels : WellKnownLabels}.

(** An error comes with a nil client, and a client that is returned has
    either both handles or none. *)
Theorem NewClusterClientSet_result_shape
    (kubeconfigGetterFor : Cluster -> KubeconfigGetter) (c : Cluster)
    (client : option ClusterClient) (err : option error) :
  NewClusterClientSet kubeconfigGetterFor c = Returns (client, err) ->
  (is_Some err -> client = None)
  ∧ (∀ cl, client = Some cl ->
       (discoveryClient cl = None ∧ kubeClient cl = None)
       ∨ (is_Some (discoveryClient cl) ∧ is_Some (kubeClient cl))).
Proof.
  unfold NewClusterClientSet.
  destruct ChooseHostInterface as [hostIP|hostErr];
    [|intros [= <- <-]; split; [done|by intros cl [=]]].
  destruct (serverAddressLoop hostIP _ EmptyString) as [address|parseErr];
    [|intros [= <- <-]; split; [done|by intros cl [=]]].
  destruct (decide (address <> EmptyString)) as [_|_].
  - destruct (BuildConfigFromKubeconfigGetter address _) as [[config|buildErr]|];
      [|intros [= <- <-]; split; [done|by intros cl [=]]|done].
    destruct (NewDiscoveryClientForConfigOrDie _) as [[dc|]|];
      [|intros [= <- <-]; split; [by intros [? ?]|by intros cl [=]]|done].
    destruct (NewForConfigOrDie _) as [[kc|]|];
      [|intros [= <- <-]; split; [by intros [? ?]|by intros cl [=]]|done].
    intros [= <- <-]. split; [by intros [? ?]|].
    intros cl [= <-]. right. simpl. split; by eexists.
  - intros [= <- <-]. split; [by intros [? ?]|].
    intros cl [= <-]. left. by split.
Qed.

(** The client returned when no CIDR matches cannot be used: the health
    probe and the zone discovery both panic on it. *)
Theorem NewClusterClientSet_no_endpoint_client_unusable
    (kubeconfigGetterFor : Cluster -> KubeconfigGetter) (c : Cluster) (hostIP : IP) :
  ChooseHostInterface = inl hostIP ->
  Forall (noMatch hostIP) (ServerAddressByClientCIDRs (Spec c)) ->
  ∃ client,
    NewClusterClientSet kubeconfigGetterFor c = Returns (Some client, None)
    ∧ (∀ currentTime, GetClusterHealthStatus currentTime client = Panics)
    ∧ GetClusterZones client = Panics.
Proof.
  intros Hhost Hnone. exists (mkClusterClient None None). split; [|done].
  unfold NewClusterClientSet. rewrite Hhost.
  by rewrite (serverAddressLoop_no_match _ _ _ Hnone).
Qed.

(** A matching pair whose server address is empty counts as no endpoint:
    the factory returns the client without handles and no error, and the
    resolver is not consulted. *)
Theorem NewClusterClientSet_empty_server_address
    (kubeconfigGetterFor : Cluster -> KubeconfigGetter) (c : Cluster) (hostIP : IP)
    (pre : list ServerAddressByClientCIDR) (item : ServerAddressByClientCIDR)
    (post : list ServerAddressByClientCIDR) :
  ChooseHostInterface = inl hostIP ->
  ServerAddressByClientCIDRs (Spec c) = pre ++ item :: post ->
  Forall (noMatch hostIP) pre ->
  isMatch hostIP item ->
  ServerAddress item = EmptyString ->
  ∀ otherGetterFor,
    NewClusterClientSet kubeconfigGetterFor c
    = Returns (Some (mkClusterClient None None), None)
    ∧ NewClusterClientSet otherGetterFor c
      = NewClusterClientSet kubeconfigGetterFor c.
Proof.
  intros Hhost Hitems Hpre Hin Hempty otherGetterFor.
  unfold NewClusterClientSet. rewrite Hhost, Hitems.
  rewrite (serverAddressLoop_match _ _ _ _ _ Hpre Hin), Hempty.
  by rewrite decide_False by (by intros Hne).
Qed.

End Clients.

Lemma NewClusterClientSet_result_shape_witness :
  (is_Some (Some "credentials unavailable" : option error) ->
   (None : option ClusterClient) = None)
  ∧ (∀ cl, None = Some cl ->
       (discoveryClient cl = None ∧ kubeClient cl = None)
       ∨ (is_Some (discoveryClient cl) ∧ is_Some (kubeClient cl))).
Proof.
  apply (@NewClusterClientSet_result_shape IPv4.net
           (IPv4.host "10.1.1.1" podEnv (inr "no service account"))
           IPv4.clients IPv4.build (staticGetter (inr "credentials unavailable"))
           (clusterWith [("10.0.0.0/8", "https://10.0.0.1")])
           None (Some "credentials unavailable")).
  vm_compute. reflexivity.
Defined.

Lemma NewClusterClientSet_no_endpoint_client_unusable_witness :
  ∃ client,
    @NewClusterClientSet IPv4.net (IPv4.host "10.1.1.1" podEnv (inr "no service account"))
      IPv4.clients IPv4.build (staticGetter (inl "kubeconfig"))
      (clusterWith [("192.168.0.0/16", "https://192.168.0.1")])
    = Returns (Some client, None)
    ∧ (∀ currentTime, GetClusterHealthStatus currentTime client = Panics)
    ∧ @GetClusterZones k8sLabels client = Panics.
Proof.
  apply (@NewClusterClientSet_no_endpoint_client_unusable IPv4.net
           (IPv4.host "10.1.1.1" podEnv (inr "no service account"))
           IPv4.clients IPv4.build k8sLabels (staticGetter (inl "kubeconfig"))
           (clusterWith [("192.168.0.0/16", "https://192.168.0.1")])
           (Some 167837953%N)).
  - reflexivity.
  - constructor; [apply noMatch_example|constructor].
Defined.

Lemma NewClusterClientSet_empty_server_address_witness :
  @NewClusterClientSet IPv4.net (IPv4.host "10.1.1.1" podEnv (inr "no service account"))
    IPv4.clients IPv4.build (staticGetter (inr "credentials unavailable"))
    (clusterWith [("192.168.0.0/16", "https://192.168.0.1"); ("10.0.0.0/8", EmptyString)])
  = Returns (Some (mkClusterClient None None), None)
  ∧ @NewClusterClientSet IPv4.net (IPv4.host "10.1.1.1" podEnv (inr "no service account"))
      IPv4.clients IPv4.build (staticGetter (inl "kubeconfig"))
      (clusterWith [("192.168.0.0/16", "https://192.168.0.1"); ("10.0.0.0/8", EmptyString)])
    = @NewClusterClientSet IPv4.net (IPv4.host "10.1.1.1" podEnv (inr "no service account"))
        IPv4.clients IPv4.build (staticGetter (inr "credentials unavailable"))
        (clusterWith [("192.168.0.0/16", "https://192.168.0.1"); ("10.0.0.0/8", EmptyString)]).
Proof.
  apply (@NewClusterClientSet_empty_server_address IPv4.net
           (IPv4.host "10.1.1.1" podEnv (inr "no service account"))
           IPv4.clients IPv4.build (staticGetter (inr "credentials unavailable"))
           (clusterWith [("192.168.0.0/16", "https://192.168.0.1"); ("10.0.0.0/8", EmptyString)])
           (Some 167837953%N)
           [mkServerAddressByClientCIDR "192.168.0.0/16" "https://192.168.0.1"]
           (mkServerAddressByClientCIDR "10.0.0.0/8" EmptyString) []).
  - reflexivity.
  - reflexivity.
  - constructor; [apply noMatch_example|constructor].
  - apply isMatch_example.
  - reflexivity.
Defined.

(** ** Default credential resolver: the remaining outcomes *)

Section ResolverOutcomes.
Context {netLib : NetLib} {hostEnv : HostEnv} {clientLib : ClientLib}.

(** The resolver panics in one situation only: the namespace is set, the
    in-cluster client is created, and the cluster has no secret reference.
    With the namespace unset or the client missing it returns an error
    before it looks at the reference. *)
Theorem KubeconfigGetterForCluster_panics_iff (c : Cluster) :
  KubeconfigGetterForCluster c tt = Panics
  ↔ Getenv "POD_NAMESPACE" <> EmptyString
    ∧ (∃ client, NewInCluster = inl client)
    ∧ SecretRef (Spec c) = None.
Proof.
  unfold KubeconfigGetterForCluster.
  destruct (decide (Getenv "POD_NAMESPACE" = EmptyString)) as [Hns|Hns].
  { split; [done|]. by intros (Hne & _). }
  destruct NewInCluster as [client|err].
  2:{ split; [done|]. by intros (_ & (client & [=]) & _). }
  destruct (SecretRef (Spec c)) as [name|].
  2:{ split; [|done]. intros _. split_and!; [done|by exists client|done]. }
  split; [|by intros (_ & _ & [=])].
  destruct (SecretsGet client _ name) as [secret|err]; [|done].
  by destruct (Data secret !! KubeconfigSecretDataKey).
Qed.

(** When the in-cluster client cannot be created, the resolver returns an
    error of its own that carries the cause, whether or not the cluster
    has a secret reference. *)
Theorem KubeconfigGetterForCluster_no_in_cluster_client (c : Cluster) (cause : error) :
  Getenv "POD_NAMESPACE" <> EmptyString ->
  NewInCluster = inr cause ->
  KubeconfigGetterForCluster c tt
  = Returns (inr ("error in creating in-cluster client: " +:+ cause)).
Proof.
  intros Hns Hclient. unfold KubeconfigGetterForCluster.
  rewrite decide_False by done. by rewrite Hclient.
Qed.

(** The resolver reads the secret named by the cluster in the namespace of
    POD_NAMESPACE and hands the data stored under kubeconfig to
    [clientcmd.Load], whose result it returns, error included; the other
    entries of the secret play no part. *)
Theorem KubeconfigGetterForCluster_loads_kubeconfig (c : Cluster)
    (client : InClusterClient) (name document : string)
    (others : gmap string string) :
  Getenv "POD_NAMESPACE" <> EmptyString ->
  NewInCluster = inl client ->
  SecretRef (Spec c) = Some name ->
  SecretsGet client (Getenv "POD_NAMESPACE") name
  = inl (mkSecret (<["kubeconfig" := document]> others)) ->
  KubeconfigGetterForCluster c tt = Returns (Load document).
Proof.
  intros Hns Hclient Href Hget. unfold KubeconfigGetterForCluster.
  rewrite decide_False by done. rewrite Hclient, Href, Hget. simpl.
  unfold KubeconfigSecretDataKey. by rewrite lookup_insert_eq.
Qed.

End ResolverOutcomes.

Lemma KubeconfigGetterForCluster_panics_iff_witness :
  @KubeconfigGetterForCluster IPv4.net
    (IPv4.host "10.1.1.1" podEnv (inl (mkInClusterClient (fun _ _ => inr "secret not found"))))
    IPv4.clients (mkCluster "member" (mkClusterSpec [] None)) tt
  = Panics.
Proof.
  apply (proj2 (@KubeconfigGetterForCluster_panics_iff IPv4.net
    (IPv4.host "10.1.1.1" podEnv (inl (mkInClusterClient (fun _ _ => inr "secret not found"))))
    IPv4.clients (mkCluster "member" (mkClusterSpec [] None)))).
  split_and!.
  - vm_compute. discriminate.
  - eexists. reflexivity.
  - reflexivity.
Defined.

Lemma KubeconfigGetterForCluster_no_in_cluster_client_witness :
  @KubeconfigGetterForCluster IPv4.net
    (IPv4.host "10.1.1.1" podEnv (inr "no service account")) IPv4.clients
    (mkCluster "member" (mkClusterSpec [] None)) tt
  = Returns (inr "error in creating in-cluster client: no service account").
Proof.
  apply (@KubeconfigGetterForCluster_no_in_cluster_client IPv4.net
           (IPv4.host "10.1.1.1" podEnv (inr "no service account")) IPv4.clients
           (mkCluster "member" (mkClusterSpec [] None)) "no service account").
  - vm_compute. discriminate.
  - reflexivity.
Defined.

Lemma KubeconfigGetterForCluster_loads_kubeconfig_witness :
  @KubeconfigGetterForCluster IPv4.net
    (IPv4.host "10.1.1.1" podEnv
       (inl (mkInClusterClient
          (fun _ _ => inl (mkSecret (<["kubeconfig" := "doc"]> {["token" := "abc"]}))))))
    IPv4.clients (clusterWith []) tt
  = Returns (inl "doc").
Proof.
  apply (@KubeconfigGetterForCluster_loads_kubeconfig IPv4.net
           (IPv4.host "10.1.1.1" podEnv
              (inl (mkInClusterClient
                 (fun _ _ => inl (mkSecret (<["kubeconfig" := "doc"]> {["token" := "abc"]}))))))
           IPv4.clients (clusterWith [])
           (mkInClusterClient
              (fun _ _ => inl (mkSecret (<["kubeconfig" := "doc"]> {["token" := "abc"]}))))
           "member-secret" "doc" {["token" := "abc"]}).
  - vm_compute. discriminate.
  - reflexivity.
  - reflexivity.
  - reflexivity.
Defined.

(** ** Health probe: which bodies mean ready *)

(** The probe reports the single condition Ready=true exactly when the
    request succeeds and the body is one of ok, oK, Ok, OK, or the letter o
    or O followed by the Kelvin sign. A body with anything more, such as a
    line end after ok, is not ready. *)
Theorem GetClusterHealthStatus_ready_iff (currentTime : Time) (self : ClusterClient)
    (dc : DiscoveryClient) (body : string) (err : option error) :
  discoveryClient self = Some dc ->
  Raw dc "/healthz" = (body, err) ->
  GetClusterHealthStatus currentTime self
  = Returns (mkClusterStatus [newClusterReadyCondition currentTime])
  ↔ err = None
    ∧ body ∈ ["ok"; "oK"; "Ok"; "OK"; "o" +:+ kelvinSign; "O" +:+ kelvinSign].
Proof.
  intros Hdc Hraw. unfold GetClusterHealthStatus. rewrite Hdc, Hraw.
  rewrite <- EqualFold_ok.
  destruct err as [e|]; [|destruct (EqualFold body "ok")]; simpl.
  - split; [discriminate|]. by intros [[=] _].
  - split; [by intros _; split|done].
  - split; [discriminate|]. by intros [_ [=]].
Qed.

Lemma GetClusterHealthStatus_ready_iff_witness :
  GetClusterHealthStatus 1467331200%Z
    (answering (String "o" (String "k" (String (byte_of 10) EmptyString))) None)
  <> Returns (mkClusterStatus [newClusterReadyCondition 1467331200%Z]).
Proof.
  intros Hready.
  apply (GetClusterHealthStatus_ready_iff 1467331200%Z
           (answering (String "o" (String "k" (String (byte_of 10) EmptyString))) None)
           (mkDiscoveryClient
              (fun _ => (String "o" (String "k" (String (byte_of 10) EmptyString)), None)))
           (String "o" (String "k" (String (byte_of 10) EmptyString))) None
           eq_refl eq_refl) in Hready.
  destruct Hready as [_ Hin].
  repeat (apply elem_of_cons in Hin as [Hin|Hin]; [discriminate Hin|]).
  by apply elem_of_nil in Hin.
Defined.

(** * Properties of the locale handler *)

Section LocaleFacts.
Context {localeLib : LocaleLib}.

Lemma keysLoop_fmap (translations : list Translation) (result : list string) :
  keysLoop translations result = result ++ (Key <$> translations).
Proof.
  revert result. induction translations as [|t rest IH]; intros result; simpl.
  - by rewrite app_nil_r.
  - by rewrite IH, <- app_assoc.
Qed.

Lemma localeLoop_found (base : string) (supported : list string) (matched : string) :
  base ∈ supported -> localeLoop base supported matched = base.
Proof.
  induction supported as [|l rest IH]; simpl; intros Hin.
  - by apply elem_of_nil in Hin.
  - destruct (decide (l = base)) as [->|Hne]; [done|].
    apply elem_of_cons in Hin as [->|Hin]; [done|by apply IH].
Qed.

Lemma localeLoop_not_found (base : string) (supported : list string) (matched : string) :
  base ∉ supported -> localeLoop base supported matched = matched.
Proof.
  induction supported as [|l rest IH]; simpl; intros Hout; [done|].
  apply not_elem_of_cons in Hout as [Hne Hout].
  destruct (decide (l = base)) as [->|_]; [done|by apply IH].
Qed.

Lemma tagLoop_servable (handler : LocaleHandler) (tag : Tag) (rest : list Tag) :
  servable handler tag ->
  tagLoop handler (tag :: rest) = "./public/" +:+ Tag_Base tag.
Proof.
  intros (Hin & Hne & Hdir). simpl. rewrite (localeLoop_found _ _ _ Hin).
  by rewrite bool_decide_true, Hdir.
Qed.

Lemma tagLoop_not_servable (handler : LocaleHandler) (tag : Tag) (rest : list Tag) :
  ¬ servable handler tag ->
  tagLoop handler (tag :: rest) = tagLoop handler rest.
Proof.
  intros Hno. simpl.
  destruct (decide (Tag_Base tag ∈ SupportedLocales handler)) as [Hin|Hout].
  - rewrite (localeLoop_found _ _ _ Hin).
    destruct (decide (Tag_Base tag = EmptyString)) as [Hempty|Hne].
    + by rewrite bool_decide_false by (by intros Hne).
    + rewrite bool_decide_true by done.
      destruct (dirExists ("./public/" +:+ Tag_Base tag)) eqn:Hdir; [|done].
      by destruct Hno.
  - rewrite (localeLoop_not_found _ _ _ Hout).
    by rewrite bool_decide_false by (by intros Hne).
Qed.


Lemma servable_dec (handler : LocaleHandler) (tag : Tag) :
  servable handler tag ∨ ¬ servable handler tag.
Proof.
  unfold servable.
  destruct (decide (Tag_Base tag ∈ SupportedLocales handler)); [|right; tauto].
  destruct (decide (Tag_Base tag = EmptyString)); [right; tauto|].
  destruct (dirExists ("./public/" +:+ Tag_Base tag)); [left; tauto|right].
  intros (_ & _ & [=]).
Qed.

Lemma tagLoop_sound (handler : LocaleHandler) (tags : list Tag) :
  tagLoop handler tags = defaultDir
  ∨ ∃ tag, tag ∈ tags ∧ servable handler tag
           ∧ tagLoop handler tags = "./public/" +:+ Tag_Base tag.
Proof.
  induction tags as [|tag rest IH]; [by left|].
  destruct (servable_dec handler tag) as [Hyes|Hno].
  - right. exists tag. split_and!; [by left|done|by apply tagLoop_servable].
  - rewrite (tagLoop_not_servable _ _ _ Hno).
    destruct IH as [?|(t & Hin & Hs & Heq)]; [by left|].
    right. exists t. split_and!; [by right|done|done].
Qed.

(** [getSupportedLocales] fails only when the file cannot be read. When it
    can, the result is the key of every translation of the document, in the
    document's order and with repetitions kept, and no error, even if the
    document is not valid JSON. *)
Theorem getSupportedLocales_keys (configFile : string) :
  (∀ err, ReadFile configFile = inr err ->
     getSupportedLocales configFile = ([], Some err))
  ∧ (∀ data localization jsonErr,
       ReadFile configFile = inl data ->
       Unmarshal data = (localization, jsonErr) ->
       getSupportedLocales configFile
       = (Key <$> Translations localization, None)).
Proof.
  unfold getSupportedLocales. split.
  - by intros err ->.
  - intros data localization jsonErr -> ->. by rewrite keysLoop_fmap.
Qed.

(** [CreateLocaleHandler] always yields a handler: with no supported locale
    when the configuration cannot be read, and with the keys of the
    configured translations otherwise. *)
Theorem CreateLocaleHandler_locales :
  (∀ err, ReadFile "./locale_conf.json" = inr err ->
     SupportedLocales CreateLocaleHandler = [])
  ∧ (∀ data localization jsonErr,
       ReadFile "./locale_conf.json" = inl data ->
       Unmarshal data = (localization, jsonErr) ->
       SupportedLocales CreateLocaleHandler = Key <$> Translations localization).
Proof.
  unfold CreateLocaleHandler, getSupportedLocales. split.
  - by intros err ->.
  - intros data localization jsonErr -> ->. by rewrite keysLoop_fmap.
Qed.

(** The directory chosen for a header is the default one or the directory
    of a supported, non-empty locale that exists and is the base language
    of a tag of the header: the header cannot name any other directory. *)
Theorem determineLocalizedDir_sound (handler : LocaleHandler) (locale : string) :
  determineLocalizedDir handler locale = defaultDir
  ∨ ∃ tag,
      tag ∈ (ParseAcceptLanguage locale).1
      ∧ Tag_Base tag ∈ SupportedLocales handler
      ∧ Tag_Base tag <> EmptyString
      ∧ dirExists ("./public/" +:+ Tag_Base tag) = true
      ∧ determineLocalizedDir handler locale = "./public/" +:+ Tag_Base tag.
Proof.
  unfold determineLocalizedDir.
  destruct (ParseAcceptLanguage locale) as [tags err]. simpl.
  destruct (bool_decide (is_Some err) || bool_decide (length tags = 0)); [by left|].
  destruct (tagLoop_sound handler tags) as [?|(tag & Hin & (Hs & Hne & Hdir) & Heq)];
    [by left|].
  right. by exists tag.
Qed.


(** The default directory is served when the header does not parse, has
    no tag, or has no tag that can be served; in particular always when no
    locale is supported. *)
Theorem determineLocalizedDir_default (handler : LocaleHandler) (locale : string) :
  is_Some (ParseAcceptLanguage locale).2
  ∨ Forall (λ t, ¬ servable handler t) (ParseAcceptLanguage locale).1
  ∨ SupportedLocales handler = [] ->
  determineLocalizedDir handler locale = defaultDir.
Proof.
  unfold determineLocalizedDir.
  destruct (ParseAcceptLanguage locale) as [tags err]. simpl.
  intros Hcase.
  destruct (bool_decide (is_Some err)) eqn:Herr; [done|].
  destruct (bool_decide (length tags = 0)); [done|]. simpl.
  assert (Hall : Forall (λ t, ¬ servable handler t) tags).
  { destruct Hcase as [Hsome|[Hall|Hnone]]; [|done|].
    - by apply bool_decide_eq_false in Herr.
    - apply Forall_forall. intros t _ (Hin & _). rewrite Hnone in Hin.
      by apply elem_of_nil in Hin. }
  clear Hcase Herr. induction Hall as [|t rest Hno _ IH]; [done|].
  by rewrite (tagLoop_not_servable _ _ _ Hno).
Qed.

End LocaleFacts.

Lemma getSupportedLocales_keys_witness :
  @getSupportedLocales exampleLocale "./locale_conf.json" = (["fr"; "ja"], None)
  ∧ @getSupportedLocales exampleLocale "./missing.json"
    = ([], Some "open ./missing.json: no such file or directory").
Proof.
  split.
  - apply (proj2 (@getSupportedLocales_keys exampleLocale "./locale_conf.json")
             "conf"
             (mkLocalization
                [mkTranslation "messages-fr.xtb" "fr"; mkTranslation "messages-ja.xtb" "ja"])
             None).
    + vm_compute. reflexivity.
    + vm_compute. reflexivity.
  - apply (proj1 (@getSupportedLocales_keys exampleLocale "./missing.json")).
    vm_compute. reflexivity.
Defined.

Lemma CreateLocaleHandler_locales_witness :
  SupportedLocales (@CreateLocaleHandler exampleLocale) = ["fr"; "ja"]
  ∧ SupportedLocales (@CreateLocaleHandler (tableLocale ∅ ∅ ∅ ∅)) = [].
Proof.
  split.
  - apply (proj2 (@CreateLocaleHandler_locales exampleLocale)
             "conf"
             (mkLocalization
                [mkTranslation "messages-fr.xtb" "fr"; mkTranslation "messages-ja.xtb" "ja"])
             None).
    + vm_compute. reflexivity.
    + vm_compute. reflexivity.
  - apply (proj1 (@CreateLocaleHandler_locales (tableLocale ∅ ∅ ∅ ∅))
             "open ./locale_conf.json: no such file or directory").
    vm_compute. reflexivity.
Defined.


Lemma determineLocalizedDir_default_witness :
  @determineLocalizedDir exampleLocale (mkLocaleHandler ["fr"; "ja"]) "not a header"
  = "./public/en"
  ∧ @determineLocalizedDir exampleLocale (mkLocaleHandler [])
      "de-CH, fr;q=0.8, ja;q=0.5"
    = "./public/en".
Proof.
  split.
  - apply (@determineLocalizedDir_default exampleLocale
             (mkLocaleHandler ["fr"; "ja"]) "not a header").
    left. vm_compute. eexists. reflexivity.
  - apply (@determineLocalizedDir_default exampleLocale
             (mkLocaleHandler []) "de-CH, fr;q=0.8, ja;q=0.5").
    right. right. reflexivity.
Defined.
